(** * axios-wrapper-pro: request keys, cancellation registry and retry loop

    A shallow embedding of [src/index.ts], [src/utils.ts], [src/types.ts] and
    of the default configuration module, followed by the properties of the
    request-lifecycle controller.

    Conventions of the embedding:
    - JavaScript values that reach the key generator are the first-order
      fragment [JsValue]; the numbers are the safe integers, negative zero,
      [NaN] and the two infinities; strings are sequences of one-byte code
      units.
    - A JavaScript [Map] is its [[MapData]] list of ECMA-262: entries in
      insertion order, a deleted entry left in place as an empty slot, so
      that [forEach] over a map that changes under it can be followed.
    - The object state of the class is threaded explicitly ([State]); what
      the transport, the timers and the [abort] listeners do is a parameter
      of the development. *)

Set Warnings "-register-all".
From Stdlib Require Import List String Ascii ZArith Lia Bool.
From Stdlib Require Import Permutation Sorted DecimalString DecimalZ DecimalPos.
Import ListNotations.

Local Open Scope list_scope.
Local Open Scope string_scope.

(** ** JavaScript values *)

(** [JNum n] is the number whose value is the integer [n]; it stands for a
    JavaScript number when [n] is a safe integer (of magnitude at most
    2^53 - 1), which is exact as a double and which [JSON.stringify] prints
    in plain decimal.  The numbers that are no integer of the mathematical
    kind have their own constructors: negative zero, [NaN], and
    [Infinity] / [-Infinity]. *)
Inductive JsValue : Type :=
| JUndefined
| JNull
| JBool (b : bool)
| JNum (n : Z)
| JNegZero
| JNaN
| JInfinity (negative : bool)
| JStr (s : string)
| JArr (items : list JsValue)
| JObj (props : list (string * JsValue)).

(** Own enumerable properties of an object, in insertion order. A
    well-formed object has no key twice. *)
Definition Props := list (string * JsValue).

Module Js.

(** [ToBoolean]. *)
Definition truthy (v : JsValue) : bool :=
  match v with
  | JUndefined | JNull => false
  | JBool b => b
  | JNum n => negb (n =? 0)%Z
  | JNegZero | JNaN => false
  | JInfinity _ => true
  | JStr s => negb (s =? "")
  | JArr _ | JObj _ => true
  end.

(** [Object.keys(obj)]. *)
Definition keys (o : Props) : list string := map fst o.

(** [obj[key]]: [undefined] for a missing property. *)
Fixpoint get (o : Props) (key : string) : JsValue :=
  match o with
  | [] => JUndefined
  | (k, v) :: rest => if k =? key then v else get rest key
  end.

(** [delete obj[key]]. *)
Fixpoint delete (o : Props) (key : string) : Props :=
  match o with
  | [] => []
  | (k, v) :: rest => if k =? key then delete rest key else (k, v) :: delete rest key
  end.

(** Decimal rendering of an array index or of an integer number. *)
Definition of_nat (n : nat) : string := NilZero.string_of_uint (Nat.to_uint n).
Definition of_Z (n : Z) : string := NilZero.string_of_int (Z.to_int n).

Fixpoint indexed {A} (i : nat) (l : list A) : list (string * A) :=
  match l with
  | [] => []
  | x :: rest => (of_nat i, x) :: indexed (S i) rest
  end.

Fixpoint chars (s : string) : list JsValue :=
  match s with
  | EmptyString => []
  | String c rest => JStr (String c EmptyString) :: chars rest
  end.

(** [{ ...v }]: a fresh object holding the own enumerable properties of
    [v]; the elements of an array and the characters of a string count
    under their indices, other primitives have none. *)
Definition spread (v : JsValue) : Props :=
  match v with
  | JObj o => o
  | JArr items => indexed 0 items
  | JStr s => indexed 0 (chars s)
  | _ => []
  end.

Definition upper_char (c : ascii) : ascii :=
  let n := nat_of_ascii c in
  if (97 <=? n)%nat && (n <=? 122)%nat then ascii_of_nat (n - 32) else c.

(** [String.prototype.toUpperCase] on one-byte code units. *)
Fixpoint toUpperCase (s : string) : string :=
  match s with
  | EmptyString => EmptyString
  | String c rest => String (upper_char c) (toUpperCase rest)
  end.

(** [Array.prototype.join(",")] on strings. *)
Definition join (l : list string) : string := String.concat "," l.

Definition dquote : string := String "034"%char EmptyString.
Definition backslash : string := String "092"%char EmptyString.

Definition hex_digit (n : nat) : ascii :=
  if (n <? 10)%nat then ascii_of_nat (48 + n) else ascii_of_nat (87 + n).

(** The escape of one code unit by [JSON.stringify] ([QuoteJSONString]). *)
Definition escape_char (c : ascii) : string :=
  let n := nat_of_ascii c in
  if (n =? 34)%nat then backslash ++ dquote
  else if (n =? 92)%nat then backslash ++ backslash
  else if (n =? 8)%nat then backslash ++ "b"
  else if (n =? 9)%nat then backslash ++ "t"
  else if (n =? 10)%nat then backslash ++ "n"
  else if (n =? 12)%nat then backslash ++ "f"
  else if (n =? 13)%nat then backslash ++ "r"
  else if (n <? 32)%nat then
    backslash ++ "u00" ++ String (hex_digit (n / 16)) (String (hex_digit (n mod 16)) EmptyString)
  else String c EmptyString.

Fixpoint escape (s : string) : string :=
  match s with
  | EmptyString => EmptyString
  | String c rest => escape_char c ++ escape rest
  end.

(** [JSON.stringify] on the values that reach it from [_stableStringify]:
    booleans, numbers and strings.  A finite number is printed by
    [Number::toString] (negative zero as [0]), a number that is not finite
    as [null]. *)
Definition JSON_stringify_scalar (v : JsValue) : string :=
  match v with
  | JBool true => "true"
  | JBool false => "false"
  | JNum n => of_Z n
  | JNegZero => "0"
  | JNaN | JInfinity _ => "null"
  | JStr s => dquote ++ escape s ++ dquote
  | _ => EmptyString
  end.

(** [Array.prototype.sort()] with the default comparison, on strings:
    ascending order of code units. The order is total and antisymmetric,
    so the sorted array does not depend on the algorithm; insertion is
    used here. *)
Fixpoint insert_sorted (k : string) (l : list string) : list string :=
  match l with
  | [] => [k]
  | h :: t => if (k <=? h)%string then k :: h :: t else h :: insert_sorted k t
  end.

Definition sort (l : list string) : list string := fold_right insert_sorted [] l.

End Js.

(** ** The stable serializer *)

(** [_stableStringify(obj)].  The object case reads [obj[key]] for each
    sorted key; the recursive calls are made on the properties first and
    looked up afterwards, which is the same string (lemma
    [_stableStringify_object]) and is structurally recursive. *)
Fixpoint _stableStringify (obj : JsValue) : string :=
  match obj with
  | JNull | JUndefined => EmptyString
  | JArr items => "[" ++ Js.join (map _stableStringify items) ++ "]"
  | JObj props =>
      let rendered := map (fun kv => (fst kv, _stableStringify (snd kv))) props in
      let sortedKeys := Js.sort (Js.keys props) in
      let pairs :=
        map (fun key =>
               Js.dquote ++ key ++ Js.dquote ++ ":"
               ++ match find (fun kv => fst kv =? key) rendered with
                  | Some kv => snd kv
                  | None => EmptyString
                  end) sortedKeys in
      "{" ++ Js.join pairs ++ "}"
  | _ => Js.JSON_stringify_scalar obj
  end.


(** ** Request configuration, errors and responses ([src/types.ts]) *)

(** [RequestKey = string | symbol]; a symbol is its identity. *)
Inductive RequestKey : Type :=
| KString (s : string)
| KSymbol (id : nat).

Definition RequestKey_eqb (a b : RequestKey) : bool :=
  match a, b with
  | KString x, KString y => (x =? y)%string
  | KSymbol x, KSymbol y => (x =? y)%nat
  | _, _ => false
  end.

(** [ToBoolean] of a request key slot: [undefined] and the empty string are
    falsy, every symbol is truthy. *)
Definition key_truthy (k : option RequestKey) : bool :=
  match k with
  | None => false
  | Some (KString s) => negb (s =? "")
  | Some (KSymbol _) => true
  end.

(** Identity of an [AbortController] object. *)
Definition Ctrl := nat.

(** [AxiosRequestConfig] with the two fields [_setupAbortController] adds.
    An absent property is [None] (or [JUndefined] for the [any]-typed
    [params] and [data]). *)
Record AxiosRequestConfig : Type := mkConfig {
  method : option string;
  url : option string;
  params : JsValue;
  data : JsValue;
  paramsSerializer : option (JsValue -> string);
  signal : option Ctrl;
  _requestKey : option RequestKey
}.

Record AxiosResponse : Type := mkResponse {
  status : Z;
  res_data : JsValue;
  res_config : AxiosRequestConfig
}.

(** What is thrown by the transport. [__CANCEL__] is the mark [axios.isCancel]
    reads; [response] is the status of the response when there is one. *)
Record AxiosError : Type := mkError {
  __CANCEL__ : bool;
  response : option Z;
  err_config : option AxiosRequestConfig;
  message : string
}.

(** [isCancel] of [src/utils.ts], a wrapper of [axios.isCancel]. *)
Definition isCancel (error : AxiosError) : bool := __CANCEL__ error.

(** [RetryConfig]. [count] and [delay] are numbers in the source; the
    integers among them are modelled, negative ones included. *)
Record RetryConfig : Type := mkRetry {
  count : Z;
  delay : Z;
  condition : AxiosError -> bool
}.

(** [Partial<RetryConfig>]: [None] is a property that is not there. *)
Record PartialRetryConfig : Type := mkPartialRetry {
  p_count : option Z;
  p_delay : option Z;
  p_condition : option (AxiosError -> bool)
}.

Definition empty_retry : PartialRetryConfig := mkPartialRetry None None None.

(** [{ ...base, ...over }] at the shape of a retry configuration. *)
Definition spread_retry (base : RetryConfig) (over : PartialRetryConfig) : RetryConfig :=
  {| count := match p_count over with Some c => c | None => count base end;
     delay := match p_delay over with Some d => d | None => delay base end;
     condition := match p_condition over with Some f => f | None => condition base end |}.

(** [RequestConfig]: an axios configuration with [requestKey] and [retry]. *)
Record RequestConfig : Type := mkRequestConfig {
  requestKey : option RequestKey;
  retry : option PartialRetryConfig;
  restConfig : AxiosRequestConfig
}.

(** ** Default configuration *)

Definition DEFAULT_RETRY_CONFIG : RetryConfig :=
  {| count := 0;
     delay := 1000;
     condition := fun error =>
       if isCancel error then false
       else match response error with
            | None => true
            | Some st => (500 <=? st)%Z
            end |}.

(** ** The key generator *)

Definition body_methods : list string := ["POST"; "PUT"; "PATCH"; "DELETE"].

Definition includes (l : list string) (x : string) : bool := existsb (String.eqb x) l.

Definition or_default (o : option string) (d : string) : string :=
  match o with
  | Some s => if s =? "" then d else s
  | None => d
  end.

(** The local [params] of [_generateRequestKey] after the copy and the
    removal of [_t]: [None] is [null]. *)
Definition stripped_params (config : AxiosRequestConfig) : option Props :=
  if Js.truthy (params config) then
    let params := Js.spread (params config) in
    Some (if Js.truthy (Js.get params "_t") then Js.delete params "_t" else params)
  else None.

(** [_generateRequestKey(config)]; [this_paramsSerializer] is the field
    [_paramsSerializer] of the instance. *)
Definition _generateRequestKey (this_paramsSerializer : option (JsValue -> string))
    (config : AxiosRequestConfig) : string :=
  let method := Js.toUpperCase (or_default (method config) "GET") in
  let url := or_default (url config) "" in
  let params := stripped_params config in
  let serializer :=
    match paramsSerializer config with
    | Some f => Some f
    | None => this_paramsSerializer
    end in
  let paramsStr :=
    match params with
    | Some params =>
        match serializer with
        | Some f => f (JObj params)
        | None => _stableStringify (JObj params)
        end
    | None => EmptyString
    end in
  let dataStr :=
    if includes body_methods method && Js.truthy (data config) then
      match data config with
      | JStr s => s
      | d => _stableStringify d
      end
    else EmptyString in
  method ++ "|" ++ url ++ "|" ++ paramsStr ++ "|" ++ dataStr.

(** ** JavaScript [Map] keyed by request keys *)

Module JsMap.

Section Ops.
Context {V : Type}.

(** [[MapData]]: [None] is an entry whose key and value were set to
    empty by [delete] or [clear]. *)
Definition t : Type := list (option (RequestKey * V)).

Definition holds (key : RequestKey) (e : option (RequestKey * V)) : bool :=
  match e with
  | Some (k, _) => RequestKey_eqb k key
  | None => false
  end.

Fixpoint get (m : t) (key : RequestKey) : option V :=
  match m with
  | [] => None
  | Some (k, v) :: rest => if RequestKey_eqb k key then Some v else get rest key
  | None :: rest => get rest key
  end.

Definition has (m : t) (key : RequestKey) : bool := existsb (holds key) m.

(** [set]: the value of a live entry is replaced in place, a new key is
    appended. *)
Definition set (m : t) (key : RequestKey) (v : V) : t :=
  if has m key
  then map (fun e => if holds key e then Some (key, v) else e) m
  else (m ++ [Some (key, v)])%list.

Definition delete (m : t) (key : RequestKey) : t :=
  map (fun e => if holds key e then None else e) m.

Definition clear (m : t) : t := map (fun _ => None) m.

(** The live entries, in insertion order. *)
Fixpoint entries (m : t) : list (RequestKey * V) :=
  match m with
  | [] => []
  | Some kv :: rest => kv :: entries rest
  | None :: rest => entries rest
  end.

Definition size (m : t) : nat := List.length (entries m).

Definition keys (m : t) : list RequestKey := map fst (entries m).
Definition values (m : t) : list V := map snd (entries m).
End Ops.

Arguments t : clear implicits.

End JsMap.

(** ** State of a client instance *)

(** [signals] holds one slot per [AbortController] ever constructed:
    [None] while its signal is not aborted, then the abort reason.
    [abort_calls] records every call of [abort], in order. [env] is the rest
    of the world: the transport, its pending calls, the timers. *)
Record State (Env : Type) : Type := mkState {
  _abortControllers : JsMap.t Ctrl;
  signals : list (option string);
  abort_calls : list Ctrl;
  env : Env
}.

Arguments mkState {Env}.
Arguments _abortControllers {Env}.
Arguments signals {Env}.
Arguments abort_calls {Env}.
Arguments env {Env}.

Inductive Outcome : Type :=
| Ok (result : AxiosResponse)
| Err (error : AxiosError).

(** How the promise returned by [request] settles; [Rejected None] is a
    rejection with [null]. *)
Inductive Settled : Type :=
| Resolved (result : AxiosResponse)
| Rejected (lastError : option AxiosError).

Definition DEFAULT_REASON : string := "请求已取消".

Fixpoint list_set {A} (l : list A) (i : nat) (x : A) : list A :=
  match l, i with
  | [], _ => []
  | _ :: t, O => x :: t
  | h :: t, S j => h :: list_set t j x
  end.

Module Interceptor.
(** [InterceptorConfig], and [Partial<InterceptorConfig>] of the
    constructor options. A hook runs in the state of the instance and
    returns or throws. *)
Record Config (Env : Type) : Type := mkConfig {
  request : AxiosRequestConfig -> State Env -> (AxiosRequestConfig + AxiosError) * State Env;
  requestError : AxiosError -> State Env -> (AxiosRequestConfig + AxiosError) * State Env;
  response : AxiosResponse -> State Env -> Outcome * State Env;
  responseError : AxiosError -> State Env -> Outcome * State Env
}.

Record Partial (Env : Type) : Type := mkPartial {
  p_request : option (AxiosRequestConfig -> State Env -> (AxiosRequestConfig + AxiosError) * State Env);
  p_requestError : option (AxiosError -> State Env -> (AxiosRequestConfig + AxiosError) * State Env);
  p_response : option (AxiosResponse -> State Env -> Outcome * State Env);
  p_responseError : option (AxiosError -> State Env -> Outcome * State Env)
}.

Arguments request {Env}.
Arguments requestError {Env}.
Arguments response {Env}.
Arguments responseError {Env}.
Arguments p_request {Env}.
Arguments p_requestError {Env}.
Arguments p_response {Env}.
Arguments p_responseError {Env}.
Arguments mkConfig {Env}.
Arguments mkPartial {Env}.
End Interceptor.

(** [DEFAULT_INTERCEPTOR]. *)
Definition DEFAULT_INTERCEPTOR {Env : Type} : Interceptor.Config Env :=
  {| Interceptor.request := fun config s => (inl config, s);
     Interceptor.requestError := fun error s => (inr error, s);
     Interceptor.response := fun response s => (Ok response, s);
     Interceptor.responseError := fun error s => (Err error, s) |}.

(** The fields of an instance that [request] reads and never writes. *)
Record AxiosWrapperPro (Env : Type) : Type := mkClient {
  _retryConfig : RetryConfig;
  _paramsSerializer : option (JsValue -> string);
  _interceptorConfig : Interceptor.Partial Env
}.

Arguments mkClient {Env}.
Arguments _retryConfig {Env}.
Arguments _paramsSerializer {Env}.
Arguments _interceptorConfig {Env}.

Record AxiosWrapperProOptions (Env : Type) : Type := mkOptions {
  opt_paramsSerializer : option (JsValue -> string);
  opt_interceptors : option (Interceptor.Partial Env);
  opt_retry : option PartialRetryConfig
}.

Arguments mkOptions {Env}.
Arguments opt_paramsSerializer {Env}.
Arguments opt_interceptors {Env}.
Arguments opt_retry {Env}.

Definition or_empty (r : option PartialRetryConfig) : PartialRetryConfig :=
  match r with
  | Some r => r
  | None => empty_retry
  end.

(** The constructor: the fields it sets, and the empty registry. *)
Definition constructor {Env : Type} (options : AxiosWrapperProOptions Env) (e : Env)
  : AxiosWrapperPro Env * State Env :=
  ({| _retryConfig := spread_retry DEFAULT_RETRY_CONFIG (or_empty (opt_retry options));
      _paramsSerializer := opt_paramsSerializer options;
      _interceptorConfig :=
        match opt_interceptors options with
        | Some i => i
        | None => Interceptor.mkPartial None None None None
        end |},
   {| _abortControllers := []; signals := []; abort_calls := []; env := e |}).

(** ** The methods of the class *)

Section Client.

Variable Env : Type.

(** What dispatching the [abort] event of a controller runs: the
    listeners registered on its signal, called synchronously. *)
Variable listeners : Ctrl -> State Env -> State Env.

(** [this._instance.request(finalConfig)], awaited: the outcome of the
    call and the state once it has settled. Everything that ran in between
    (interceptors, other calls of the same instance) is part of it. *)
Variable send : AxiosRequestConfig -> State Env -> Outcome * State Env.

(** [await sleep(ms)]: the state once the timer has fired. *)
Variable sleep : Z -> State Env -> State Env.

Variable this : AxiosWrapperPro Env.

Local Abbreviation St := (State Env).

Definition with_registry (s : St) (m : JsMap.t Ctrl) : St :=
  {| _abortControllers := m; signals := signals s;
     abort_calls := abort_calls s; env := env s |}.

(** [this._abortControllers.delete(key)]. *)
Definition registry_delete (key : RequestKey) (s : St) : St :=
  with_registry s (JsMap.delete (_abortControllers s) key).

(** [new AbortController()]. *)
Definition new_AbortController (s : St) : Ctrl * St :=
  (List.length (signals s),
   {| _abortControllers := _abortControllers s;
      signals := (signals s ++ [None])%list;
      abort_calls := abort_calls s; env := env s |}).

(** [controller.abort(reason)]: a signal that is already aborted is left
    alone and no event is dispatched. *)
Definition abort (controller : Ctrl) (reason : string) (s : St) : St :=
  let s1 := {| _abortControllers := _abortControllers s; signals := signals s;
               abort_calls := (abort_calls s ++ [controller])%list; env := env s |} in
  match nth_error (signals s1) controller with
  | Some None =>
      listeners controller
        {| _abortControllers := _abortControllers s1;
           signals := list_set (signals s1) controller (Some reason);
           abort_calls := abort_calls s1; env := env s1 |}
  | _ => s1
  end.

(** [cancelRequest(key, reason)]. *)
Definition cancelRequest (key : RequestKey) (reason : option string) (s : St) : bool * St :=
  match JsMap.get (_abortControllers s) key with
  | Some controller =>
      let s1 := abort controller (or_default reason DEFAULT_REASON) s in
      (true, registry_delete key s1)
  | None => (false, s)
  end.

(** [Map.prototype.forEach]: the entries are visited by index in
    [[MapData]], the list being read again at each step, so an entry
    appended by the callback is visited too. [fuel] bounds the number of
    steps; [None] is a traversal that has not ended within it. *)
Fixpoint forEach (fuel index : nat) (callback : Ctrl -> St -> St) (s : St) : option St :=
  match fuel with
  | O => None
  | S fuel' =>
      match nth_error (_abortControllers s) index with
      | None => Some s
      | Some None => forEach fuel' (S index) callback s
      | Some (Some (_, controller)) => forEach fuel' (S index) callback (callback controller s)
      end
  end.

(** [cancelAllRequests(reason)]. *)
Definition cancelAllRequests (fuel : nat) (reason : option string) (s : St) : option (nat * St) :=
  let count := JsMap.size (_abortControllers s) in
  match forEach fuel 0 (fun controller => abort controller (or_default reason DEFAULT_REASON)) s with
  | Some s1 => Some (count, with_registry s1 (JsMap.clear (_abortControllers s1)))
  | None => None
  end.

(** [_setupAbortController(config, customKey)]. *)
Definition _setupAbortController (config : AxiosRequestConfig) (customKey : option RequestKey)
    (s : St) : AxiosRequestConfig * St :=
  let key :=
    match customKey with
    | Some k => k
    | None => KString (_generateRequestKey (_paramsSerializer this) config)
    end in
  let s1 := snd (cancelRequest key None s) in
  let (controller, s2) := new_AbortController s1 in
  let s3 := with_registry s2 (JsMap.set (_abortControllers s2) key controller) in
  ({| method := method config; url := url config; params := params config;
      data := data config; paramsSerializer := paramsSerializer config;
      signal := Some controller; _requestKey := Some key |}, s3).

(** [_getInterceptors()]. *)
Definition _getInterceptors : Interceptor.Config Env :=
  let c := _interceptorConfig this in
  {| Interceptor.request :=
       match Interceptor.p_request c with
       | Some f => f | None => Interceptor.request DEFAULT_INTERCEPTOR end;
     Interceptor.requestError :=
       match Interceptor.p_requestError c with
       | Some f => f | None => Interceptor.requestError DEFAULT_INTERCEPTOR end;
     Interceptor.response :=
       match Interceptor.p_response c with
       | Some f => f | None => Interceptor.response DEFAULT_INTERCEPTOR end;
     Interceptor.responseError :=
       match Interceptor.p_responseError c with
       | Some f => f | None => Interceptor.responseError DEFAULT_INTERCEPTOR end |}.

(** [key && this._abortControllers.delete(key)]. *)
Definition cleanup (key : option RequestKey) (s : St) : St :=
  match key with
  | Some k => if key_truthy key then registry_delete k s else s
  | None => s
  end.

(** The pair of functions [_initResponseInterceptors] hands to
    [interceptors.response.use]. *)
Definition installed_response (res : AxiosResponse) (s : St) : Outcome * St :=
  let key := _requestKey (res_config res) in
  Interceptor.response _getInterceptors res (cleanup key s).

Definition installed_responseError (error : AxiosError) (s : St) : Outcome * St :=
  let key :=
    match err_config error with
    | Some c => _requestKey c
    | None => None
    end in
  Interceptor.responseError _getInterceptors error (cleanup key s).

(** The result of a call of [request], with the transport invocations it
    made: the configuration sent and the outcome of each, in order. *)
Record Run : Type := mkRun {
  settled : Settled;
  sent : list (AxiosRequestConfig * Outcome);
  final : St
}.

Definition and_then (call : AxiosRequestConfig * Outcome) (r : option Run) : option Run :=
  match r with
  | Some r => Some {| settled := settled r; sent := call :: sent r; final := final r |}
  | None => None
  end.

(** The retry loop of [request] from the test [attempt <= retryConfig.count]
    on; one unit of [fuel] per iteration. *)
Fixpoint retry_loop (retryConfig : RetryConfig) (requestConfig : AxiosRequestConfig)
    (configKey : RequestKey) (fuel : nat) (attempt : Z) (lastError : option AxiosError)
    (s : St) : option Run :=
  match fuel with
  | O => None
  | S fuel' =>
      if (attempt <=? count retryConfig)%Z then
        let s1 := if (0 <? attempt)%Z then registry_delete configKey s else s in
        let (finalConfig, s2) := _setupAbortController requestConfig (Some configKey) s1 in
        let (outcome, s3) := send finalConfig s2 in
        match outcome with
        | Ok result =>
            Some {| settled := Resolved result; sent := [(finalConfig, outcome)]; final := s3 |}
        | Err error =>
            let s4 := registry_delete configKey s3 in
            let isLast := (attempt =? count retryConfig)%Z in
            let shouldRetry := condition retryConfig error in
            let isCancelled := isCancel error in
            if isLast || negb shouldRetry || isCancelled then
              Some {| settled := Rejected (Some error); sent := [(finalConfig, outcome)];
                      final := s4 |}
            else
              let s5 := if (0 <? delay retryConfig)%Z then sleep (delay retryConfig) s4 else s4 in
              and_then (finalConfig, outcome)
                (retry_loop retryConfig requestConfig configKey fuel' (attempt + 1) (Some error) s5)
        end
      else Some {| settled := Rejected lastError; sent := []; final := s |}
  end.

(** [{ method, url, ...restConfig }]: a [method] or [url] property of the
    caller's configuration comes last and wins. *)
Definition build_requestConfig (method_ url_ : string) (rest : AxiosRequestConfig)
  : AxiosRequestConfig :=
  {| method := match method rest with Some m => Some m | None => Some method_ end;
     url := match url rest with Some u => Some u | None => Some url_ end;
     params := params rest; data := data rest;
     paramsSerializer := paramsSerializer rest;
     signal := signal rest; _requestKey := _requestKey rest |}.

(** The retry configuration [request] merges for one call. *)
Definition merged_retry (config : RequestConfig) : RetryConfig :=
  spread_retry (_retryConfig this) (or_empty (retry config)).

(** Iterations the loop can need: one per attempt, and one for a test
    that fails. *)
Definition loop_fuel (retryConfig : RetryConfig) : nat :=
  S (Z.to_nat (count retryConfig + 1)).

(** [request(method, url, config)]. *)
Definition request (method_ url_ : string) (config : RequestConfig) (s : St) : option Run :=
  let retryConfig := merged_retry config in
  let requestConfig := build_requestConfig method_ url_ (restConfig config) in
  let configKey :=
    match requestKey config with
    | Some k => k
    | None => KString (_generateRequestKey (_paramsSerializer this) requestConfig)
    end in
  retry_loop retryConfig requestConfig configKey (loop_fuel retryConfig) 0 None s.

End Client.

Arguments settled {Env}.
Arguments sent {Env}.
Arguments final {Env}.
Arguments mkRun {Env}.

(** ** The method wrappers *)

Module Facade.

Section Methods.

Variable Env : Type.
Variable listeners : Ctrl -> State Env -> State Env.
Variable send : AxiosRequestConfig -> State Env -> Outcome * State Env.
Variable sleep : Z -> State Env -> State Env.
Variable this : AxiosWrapperPro Env.

(** The default parameter [data: any = {}]: it applies to [undefined]
    only. *)
Definition default_data (data : JsValue) : JsValue :=
  match data with
  | JUndefined => JObj []
  | d => d
  end.

(** [{ ...options, data }]. *)
Definition with_data (options : RequestConfig) (data : JsValue) : RequestConfig :=
  {| requestKey := requestKey options; retry := retry options;
     restConfig :=
       {| method := method (restConfig options); url := url (restConfig options);
          params := params (restConfig options); data := data;
          paramsSerializer := paramsSerializer (restConfig options);
          signal := signal (restConfig options);
          _requestKey := _requestKey (restConfig options) |} |}.

Definition get (url_ : string) (options : RequestConfig) (s : State Env) : option (Run Env) :=
  request Env listeners send sleep this "GET" url_ options s.

Definition post (url_ : string) (data : JsValue) (options : RequestConfig) (s : State Env)
  : option (Run Env) :=
  request Env listeners send sleep this "POST" url_ (with_data options (default_data data)) s.

Definition put (url_ : string) (data : JsValue) (options : RequestConfig) (s : State Env)
  : option (Run Env) :=
  request Env listeners send sleep this "PUT" url_ (with_data options (default_data data)) s.

Definition delete (url_ : string) (options : RequestConfig) (s : State Env) : option (Run Env) :=
  request Env listeners send sleep this "DELETE" url_ options s.

Definition patch (url_ : string) (data : JsValue) (options : RequestConfig) (s : State Env)
  : option (Run Env) :=
  request Env listeners send sleep this "PATCH" url_ (with_data options (default_data data)) s.

End Methods.

End Facade.

(** ** Default headers and base URL *)

(** A JavaScript object with string values: property assignment replaces
    the value of a property in place and appends a new one. *)
Module Obj.


Fixpoint set {V : Type} (o : list (string * V)) (key : string) (v : V) : list (string * V) :=
  match o with
  | [] => [(key, v)]
  | (k, v0) :: rest => if k =? key then (k, v) :: rest else (k, v0) :: set rest key v
  end.


End Obj.







(** ** Installing the hooks *)

(** The interceptor manager of axios: [use] pushes a handler and returns its
    index, [eject] overwrites a handler that is there with [null], and the
    handlers that are not [null] run in order. *)
Module Manager.

Definition t (H : Type) : Type := list (option H).

Definition use {H : Type} (m : t H) (h : H) : t H * nat :=
  ((m ++ [Some h])%list, List.length m).

Definition eject {H : Type} (m : t H) (id : nat) : t H :=
  match nth_error m id with
  | Some (Some _) => list_set m id None
  | _ => m
  end.

Fixpoint live {H : Type} (m : t H) : list H :=
  match m with
  | [] => []
  | Some h :: rest => h :: live rest
  | None :: rest => live rest
  end.

End Manager.

Record RequestHandler (Env : Type) : Type := mkRequestHandler {
  request_fulfilled :
    AxiosRequestConfig -> State Env -> (AxiosRequestConfig + AxiosError) * State Env;
  request_rejected : AxiosError -> State Env -> (AxiosRequestConfig + AxiosError) * State Env
}.

Record ResponseHandler (Env : Type) : Type := mkResponseHandler {
  response_fulfilled : AxiosResponse -> State Env -> Outcome * State Env;
  response_rejected : AxiosError -> State Env -> Outcome * State Env
}.

Arguments mkRequestHandler {Env}.
Arguments mkResponseHandler {Env}.
Arguments request_fulfilled {Env}.
Arguments request_rejected {Env}.
Arguments response_fulfilled {Env}.
Arguments response_rejected {Env}.

(** The instance with what the interceptor methods read and write: the
    two ids ([None] is [undefined]) and the two managers of
    [this._instance.interceptors]. *)
Record Wired (Env : Type) : Type := mkWired {
  self : AxiosWrapperPro Env;
  _requestInterceptorId : option nat;
  _responseInterceptorId : option nat;
  request_handlers : Manager.t (RequestHandler Env);
  response_handlers : Manager.t (ResponseHandler Env)
}.

Arguments mkWired {Env}.
Arguments self {Env}.
Arguments _requestInterceptorId {Env}.
Arguments _responseInterceptorId {Env}.
Arguments request_handlers {Env}.
Arguments response_handlers {Env}.

(** The pair [_initRequestInterceptors] hands to [interceptors.request.use]. *)
Definition request_handler {Env : Type} (this : AxiosWrapperPro Env) : RequestHandler Env :=
  {| request_fulfilled := Interceptor.request (_getInterceptors Env this);
     request_rejected := Interceptor.requestError (_getInterceptors Env this) |}.

(** The pair [_initResponseInterceptors] hands to [interceptors.response.use]. *)
Definition response_handler {Env : Type} (this : AxiosWrapperPro Env) : ResponseHandler Env :=
  {| response_fulfilled := installed_response Env this;
     response_rejected := installed_responseError Env this |}.

Definition _initRequestInterceptors {Env : Type} (w : Wired Env) : Wired Env :=
  let (handlers, id) := Manager.use (request_handlers w) (request_handler (self w)) in
  {| self := self w; _requestInterceptorId := Some id;
     _responseInterceptorId := _responseInterceptorId w;
     request_handlers := handlers; response_handlers := response_handlers w |}.

Definition _initResponseInterceptors {Env : Type} (w : Wired Env) : Wired Env :=
  let (handlers, id) := Manager.use (response_handlers w) (response_handler (self w)) in
  {| self := self w; _requestInterceptorId := _requestInterceptorId w;
     _responseInterceptorId := Some id;
     request_handlers := request_handlers w; response_handlers := handlers |}.

(** The end of the constructor: both managers start empty. *)
Definition wire {Env : Type} (this : AxiosWrapperPro Env) : Wired Env :=
  _initResponseInterceptors
    (_initRequestInterceptors
       {| self := this; _requestInterceptorId := None; _responseInterceptorId := None;
          request_handlers := []; response_handlers := [] |}).

(** [setRequestInterceptor(interceptor, errorInterceptor)]; an argument
    that is not a function is [None]. *)
Definition setRequestInterceptor {Env : Type}
    (interceptor : option (AxiosRequestConfig -> State Env ->
                           (AxiosRequestConfig + AxiosError) * State Env))
    (errorInterceptor : option (AxiosError -> State Env ->
                                (AxiosRequestConfig + AxiosError) * State Env))
    (w : Wired Env) : Wired Env :=
  let handlers :=
    match _requestInterceptorId w with
    | Some id => Manager.eject (request_handlers w) id
    | None => request_handlers w
    end in
  let c := _interceptorConfig (self w) in
  _initRequestInterceptors
    {| self :=
         {| _retryConfig := _retryConfig (self w);
            _paramsSerializer := _paramsSerializer (self w);
            _interceptorConfig :=
              Interceptor.mkPartial interceptor errorInterceptor
                (Interceptor.p_response c) (Interceptor.p_responseError c) |};
       _requestInterceptorId := _requestInterceptorId w;
       _responseInterceptorId := _responseInterceptorId w;
       request_handlers := handlers; response_handlers := response_handlers w |}.

(** [setResponseInterceptor(interceptor, errorInterceptor)]. *)
Definition setResponseInterceptor {Env : Type}
    (interceptor : option (AxiosResponse -> State Env -> Outcome * State Env))
    (errorInterceptor : option (AxiosError -> State Env -> Outcome * State Env))
    (w : Wired Env) : Wired Env :=
  let handlers :=
    match _responseInterceptorId w with
    | Some id => Manager.eject (response_handlers w) id
    | None => response_handlers w
    end in
  let c := _interceptorConfig (self w) in
  _initResponseInterceptors
    {| self :=
         {| _retryConfig := _retryConfig (self w);
            _paramsSerializer := _paramsSerializer (self w);
            _interceptorConfig :=
              Interceptor.mkPartial (Interceptor.p_request c) (Interceptor.p_requestError c)
                interceptor errorInterceptor |};
       _requestInterceptorId := _requestInterceptorId w;
       _responseInterceptorId := _responseInterceptorId w;
       request_handlers := request_handlers w; response_handlers := handlers |}.

(** * Vocabulary of the properties *)

(** A failure after which the loop goes on when attempts are left. *)
Definition retryable (policy : RetryConfig) (o : Outcome) : bool :=
  match o with
  | Ok _ => false
  | Err e => condition policy e && negb (isCancel e)
  end.

(** How the promise settles on an outcome that ends the loop. *)
Definition settles (o : Outcome) : Settled :=
  match o with
  | Ok result => Resolved result
  | Err e => Rejected (Some e)
  end.

(** The invocations of a run that starts at [attempt]: failures that were
    retried, then one last outcome that settles the promise. *)
Definition shape (Env : Type) (retryConfig : RetryConfig) (attempt : Z) (r : Run Env) : Prop :=
  exists pre last,
    sent r = (pre ++ [last])%list /\
    Forall (fun c => retryable retryConfig (snd c) = true) pre /\
    (Z.of_nat (List.length pre) <= count retryConfig - attempt)%Z /\
    (retryable retryConfig (snd last) = false \/
     Z.of_nat (List.length pre) = (count retryConfig - attempt)%Z) /\
    settled r = settles (snd last).

(** The precedence as the specification words it: the per-call value if the
    field is present there, else the value of the instance, else the
    built-in default. *)
Definition layered {A : Type} (builtin : A) (instance percall : option A) : A :=
  match percall with
  | Some v => v
  | None => match instance with
            | Some v => v
            | None => builtin
            end
  end.

(** A field of a layer; a layer that is not given has no field. *)
Definition layer_field {A : Type} (field : PartialRetryConfig -> option A)
    (layer : option PartialRetryConfig) : option A :=
  match layer with
  | Some given => field given
  | None => None
  end.

(** The policy of a call from the [retry] option of the instance and the
    [retry] of the call, each of which may be missing. *)
Definition three_layer_policy (instance percall : option PartialRetryConfig) : RetryConfig :=
  {| count :=
       layered (count DEFAULT_RETRY_CONFIG)
         (layer_field p_count instance) (layer_field p_count percall);
     delay :=
       layered (delay DEFAULT_RETRY_CONFIG)
         (layer_field p_delay instance) (layer_field p_delay percall);
     condition :=
       layered (condition DEFAULT_RETRY_CONFIG)
         (layer_field p_condition instance) (layer_field p_condition percall) |}.

(** An entry of the trace is an answer of the transport: the outcome [send]
    gave for the configuration of the entry, in some state. *)
Definition answered {Env : Type}
    (send : AxiosRequestConfig -> State Env -> Outcome * State Env)
    (call : AxiosRequestConfig * Outcome) : Prop :=
  exists s, fst (send (fst call) s) = snd call.



(** Listeners that leave the registry and the controllers of the instance
    alone: they neither register, cancel nor abort. *)
Definition registry_blind (Env : Type) (listeners : Ctrl -> State Env -> State Env) : Prop :=
  forall c (s : State Env),
    _abortControllers (listeners c s) = _abortControllers s /\
    abort_calls (listeners c s) = abort_calls s /\
    signals (listeners c s) = signals s.

(** The [_t] of an object can be stripped by the test [params?._t]: it is
    truthy, or the object has no such property. *)
Definition strippable (o : Props) : Prop :=
  Js.truthy (Js.get o "_t") = true \/ ~ In "_t" (Js.keys o).

Definition with_params (config : AxiosRequestConfig) (p : JsValue) : AxiosRequestConfig :=
  {| method := method config; url := url config; params := p; data := data config;
     paramsSerializer := paramsSerializer config; signal := signal config;
     _requestKey := _requestKey config |}.


(** *** Values that are read back from their serialization *)












(** * Scenarios *)

(** No listener on any signal, and timers during which nothing else runs. *)
Definition quiet {Env : Type} : Ctrl -> State Env -> State Env := fun _ s => s.
Definition immediate {Env : Type} : Z -> State Env -> State Env := fun _ s => s.

(** A transport whose n-th invocation settles as [script n]; the
    environment counts the invocations. *)
Definition scripted (script : nat -> Outcome)
  : AxiosRequestConfig -> State nat -> Outcome * State nat :=
  fun _ s =>
    (script (env s),
     {| _abortControllers := _abortControllers s; signals := signals s;
        abort_calls := abort_calls s; env := S (env s) |}).

Definition server_error (st : Z) : AxiosError :=
  {| __CANCEL__ := false; response := Some st; err_config := None; message := "Request failed" |}.


Definition plain_config : AxiosRequestConfig :=
  {| method := None; url := None; params := JUndefined; data := JUndefined;
     paramsSerializer := None; signal := None; _requestKey := None |}.

Definition call_with (key : option RequestKey) (policy : PartialRetryConfig) : RequestConfig :=
  {| requestKey := key; retry := Some policy; restConfig := plain_config |}.

Definition default_client : AxiosWrapperPro nat :=
  fst (constructor (mkOptions None None None) O).

Definition fresh_state : State nat :=
  snd (constructor (mkOptions None None None) O).

Definition run_scripted (script : nat -> Outcome) (config : RequestConfig) : option (Run nat) :=
  request nat quiet (scripted script) immediate default_client "GET" "/users" config fresh_state.

Definition two_retries : RequestConfig :=
  call_with None (mkPartialRetry (Some 2%Z) (Some 0%Z) None).



(** Three different failures in a row. *)
Definition three_failures (n : nat) : Outcome :=
  match n with
  | O => Err (server_error 500)
  | S O => Err (server_error 502)
  | _ => Err (server_error 503)
  end.

Definition negative_count : RequestConfig :=
  call_with (Some (KString "k")) (mkPartialRetry (Some (-1)%Z) None None).

(** A registry with one pending handle, registered under ["k"]. *)
Definition one_pending : State nat :=
  {| _abortControllers := [Some (KString "k", O)]; signals := [None];
     abort_calls := []; env := O |}.

(** Two pending handles, one slot emptied by an earlier [delete]. *)
Definition two_pending : State nat :=
  {| _abortControllers := [Some (KString "a", O); None; Some (KSymbol 7, 2%nat)];
     signals := [None; Some DEFAULT_REASON; None];
     abort_calls := [1%nat]; env := O |}.

(** A listener on the first controller that issues the request again under
    the same key: the synchronous part of that call is
    [_setupAbortController]. The [abort] nested in it finds the signal
    already aborted and dispatches nothing; the controller it creates has
    no listener. *)
Definition reissue : Ctrl -> State nat -> State nat :=
  fun c s =>
    match c with
    | O => snd (_setupAbortController nat quiet default_client plain_config
                  (Some (KString "k")) s)
    | S _ => s
    end.

(** Listeners that issue the request again whatever controller is
    aborted: every handle registered under ["k"] carries one. *)
Definition reissue_always : Ctrl -> State nat -> State nat :=
  fun _ s =>
    snd (_setupAbortController nat quiet default_client plain_config
           (Some (KString "k")) s).

(** The registry after [i] such re-registrations: [i] emptied slots, then
    the pending handle [i] under ["k"]. *)
Definition spinning (i : nat) (calls : list Ctrl) : State nat :=
  {| _abortControllers := (repeat None i ++ [Some (KString "k", i)])%list;
     signals := (repeat (Some DEFAULT_REASON) i ++ [None])%list;
     abort_calls := calls; env := O |}.

(** [this._instance.request(config)] as axios chains it: the request hook,
    the adapter, then the installed response hooks; a rejection of the
    request hook reaches the error hook without a dispatch. [adapter] is the
    network. *)
Definition instance_request {Env : Type} (this : AxiosWrapperPro Env)
    (adapter : AxiosRequestConfig -> State Env -> Outcome * State Env)
    (config : AxiosRequestConfig) (s : State Env) : Outcome * State Env :=
  match Interceptor.request (_getInterceptors Env this) config s with
  | (inl config', s1) =>
      match adapter config' s1 with
      | (Ok res, s2) => installed_response Env this res s2
      | (Err error, s2) => installed_responseError Env this error s2
      end
  | (inr error, s1) => installed_responseError Env this error s1
  end.

(** An adapter that answers every request with a 200. *)
Definition ok_adapter {Env : Type} : AxiosRequestConfig -> State Env -> Outcome * State Env :=
  fun config s => (Ok {| status := 200; res_data := JNull; res_config := config |}, s).

Definition once (key : RequestKey) : RequestConfig :=
  {| requestKey := Some key; retry := None; restConfig := plain_config |}.

Definition registry_after (r : option (Run nat)) : option (list (RequestKey * Ctrl)) :=
  match r with
  | Some r => Some (JsMap.entries (_abortControllers (final r)))
  | None => None
  end.

(** A [GET /users] with the given query parameters. *)
Definition get_users (query : Props) : AxiosRequestConfig :=
  {| method := Some "get"; url := Some "/users"; params := JObj query; data := JUndefined;
     paramsSerializer := None; signal := None; _requestKey := None |}.

Definition with_timestamp (t : JsValue) : Props := [("page", JNum 1); ("_t", t)].





(** ** Vocabulary and scenarios of the further properties *)

(** The configuration of an attempt: the request configuration of the call
    with a signal and the key of the call. *)
Definition attempt_of (requestConfig : AxiosRequestConfig) (key : RequestKey)
    (c : AxiosRequestConfig) : Prop :=
  method c = method requestConfig /\ url c = url requestConfig /\
  params c = params requestConfig /\ data c = data requestConfig /\
  paramsSerializer c = paramsSerializer requestConfig /\
  _requestKey c = Some key /\
  exists controller, signal c = Some controller.

(** The key of a call of [request]: [requestKey ??
    this._generateRequestKey(requestConfig)]. *)
Definition call_key {Env : Type} (this : AxiosWrapperPro Env) (method_ url_ : string)
    (config : RequestConfig) : RequestKey :=
  match requestKey config with
  | Some k => k
  | None =>
      KString (_generateRequestKey (_paramsSerializer this)
                 (build_requestConfig method_ url_ (restConfig config)))
  end.

(** The first transport invocation of a call made in state [s]: the
    configuration [_setupAbortController] builds there, the outcome of
    [send] on it, and the state [send] leaves. *)
Definition first_attempt {Env : Type} (listeners : Ctrl -> State Env -> State Env)
    (send : AxiosRequestConfig -> State Env -> Outcome * State Env)
    (this : AxiosWrapperPro Env) (method_ url_ : string) (config : RequestConfig)
    (s : State Env) : (AxiosRequestConfig * Outcome) * State Env :=
  let (finalConfig, s1) :=
    _setupAbortController Env listeners this
      (build_requestConfig method_ url_ (restConfig config))
      (Some (call_key this method_ url_ config)) s in
  let (outcome, s2) := send finalConfig s1 in
  ((finalConfig, outcome), s2).

(** An adapter whose responses carry the key of the request they answer. *)
Definition echoes_key {Env : Type}
    (adapter : AxiosRequestConfig -> State Env -> Outcome * State Env) : Prop :=
  forall config s res s',
    adapter config s = (Ok res, s') -> _requestKey (res_config res) = _requestKey config.

(** An instance without hooks of its own. *)
Definition no_hooks {Env : Type} (this : AxiosWrapperPro Env) : Prop :=
  _interceptorConfig this = Interceptor.mkPartial None None None None.

Definition with_method (config : AxiosRequestConfig) (m : option string) : AxiosRequestConfig :=
  {| method := m; url := url config; params := params config; data := data config;
     paramsSerializer := paramsSerializer config; signal := signal config;
     _requestKey := _requestKey config |}.

Definition with_body (config : AxiosRequestConfig) (d : JsValue) : AxiosRequestConfig :=
  {| method := method config; url := url config; params := params config; data := d;
     paramsSerializer := paramsSerializer config; signal := signal config;
     _requestKey := _requestKey config |}.

Definition with_serializer (config : AxiosRequestConfig) (f : option (JsValue -> string))
  : AxiosRequestConfig :=
  {| method := method config; url := url config; params := params config; data := data config;
     paramsSerializer := f; signal := signal config; _requestKey := _requestKey config |}.

(** The method under which the key is computed. *)
Definition key_method (config : AxiosRequestConfig) : string :=
  Js.toUpperCase (or_default (method config) "GET").

(** The serializer of the query parameters in the words of the source
    comment: the one of the call first, then the one of the instance; the
    stable serializer when there is neither. *)
Definition chosen_serializer (percall instance : option (JsValue -> string))
  : JsValue -> string :=
  match percall with
  | Some f => f
  | None => match instance with
            | Some g => g
            | None => _stableStringify
            end
  end.

Definition is_string (v : JsValue) : bool :=
  match v with
  | JStr _ => true
  | _ => false
  end.

(** A call of one of the two interceptor setters. *)
Inductive SetterCall (Env : Type) : Type :=
| SetRequest
    (interceptor : option (AxiosRequestConfig -> State Env ->
                           (AxiosRequestConfig + AxiosError) * State Env))
    (errorInterceptor : option (AxiosError -> State Env ->
                                (AxiosRequestConfig + AxiosError) * State Env))
| SetResponse
    (interceptor : option (AxiosResponse -> State Env -> Outcome * State Env))
    (errorInterceptor : option (AxiosError -> State Env -> Outcome * State Env)).

Arguments SetRequest {Env}.
Arguments SetResponse {Env}.

Definition apply_setter {Env : Type} (w : Wired Env) (c : SetterCall Env) : Wired Env :=
  match c with
  | SetRequest f g => setRequestInterceptor f g w
  | SetResponse f g => setResponseInterceptor f g w
  end.

(** Each manager holds one live handler, the one built from the current
    hooks of the instance, under the id the instance remembers. *)
Definition installed_once {Env : Type} (w : Wired Env) : Prop :=
  Manager.live (request_handlers w) = [request_handler (self w)] /\
  Manager.live (response_handlers w) = [response_handler (self w)] /\
  (exists i, _requestInterceptorId w = Some i /\
             nth_error (request_handlers w) i = Some (Some (request_handler (self w)))) /\
  (exists j, _responseInterceptorId w = Some j /\
             nth_error (response_handlers w) j = Some (Some (response_handler (self w)))).

(** A hook that tags the response with a status, to tell hooks apart. *)
Definition stamp (st : Z) : AxiosResponse -> State nat -> Outcome * State nat :=
  fun res s => (Ok {| status := st; res_data := res_data res; res_config := res_config res |}, s).

Definition upper_query (v : JsValue) : string := "Q".
Definition lower_query (v : JsValue) : string := "q".

(** An instance with a [retry] option that sets two fields, and a call that
    overrides one of them. *)
Definition instance_layer : AxiosWrapperProOptions nat :=
  mkOptions None None (Some (mkPartialRetry (Some 3%Z) (Some 250%Z) None)).

Definition call_layer : RequestConfig :=
  call_with None (mkPartialRetry (Some 5%Z) None None).

(** A call with no [retry] at all. *)
Definition bare_call : RequestConfig :=
  {| requestKey := None; retry := None; restConfig := plain_config |}.

(** Timers during which something else runs: the environment moves on. *)
Definition ticking : Z -> State nat -> State nat :=
  fun ms s =>
    {| _abortControllers := _abortControllers s; signals := signals s;
       abort_calls := abort_calls s; env := (env s + 100)%nat |}.

Definition run_from (script : nat -> Outcome) (config : RequestConfig) (s : State nat)
  : option (Run nat) :=
  request nat quiet (scripted script) immediate default_client "GET" "/users" config s.


(** What a wrapper sends: its own method and URL unless the options carry
    a [method] or a [url] property, the body given, the query parameters of
    the options. *)
Definition wrapper_sends (method_ url_ : string) (body : JsValue) (options : RequestConfig)
    (c : AxiosRequestConfig) : Prop :=
  method c = Some (match method (restConfig options) with Some m => m | None => method_ end) /\
  url c = Some (match url (restConfig options) with Some u => u | None => url_ end) /\
  data c = body /\
  params c = params (restConfig options).

(** A step that leaves the signals and the entries of the other keys alone,
    and the entry of [key] as it was or removed. *)
Definition keeps_others {Env : Type} (key : RequestKey) (f : State Env -> State Env) : Prop :=
  forall s,
    signals (f s) = signals s /\
    (forall k, k <> key ->
               JsMap.get (_abortControllers (f s)) k = JsMap.get (_abortControllers s) k) /\
    (JsMap.get (_abortControllers (f s)) key = None \/
     JsMap.get (_abortControllers (f s)) key = JsMap.get (_abortControllers s) key).

(** [s'] differs from [s0] for the call under [key] only: the other keys
    have their handles, the controllers of [s0] other than the handle of
    [key] have their signals, and the handle of [key] is the one of [s0] or
    a controller made since. *)
Definition undisturbed {Env : Type} (key : RequestKey) (s0 s' : State Env) : Prop :=
  (List.length (signals s0) <= List.length (signals s'))%nat /\
  (forall c, (c < List.length (signals s0))%nat ->
             JsMap.get (_abortControllers s0) key <> Some c ->
             nth_error (signals s') c = nth_error (signals s0) c) /\
  (forall k, k <> key ->
             JsMap.get (_abortControllers s') k = JsMap.get (_abortControllers s0) k) /\
  (forall c, JsMap.get (_abortControllers s') key = Some c ->
             JsMap.get (_abortControllers s0) key = Some c \/
             (List.length (signals s0) <= c)%nat).

(** An adapter that works in the environment only. *)
Definition busy_adapter (n : nat) : AxiosRequestConfig -> State nat -> Outcome * State nat :=
  fun config s =>
    (Err {| __CANCEL__ := false; response := Some 503%Z; err_config := Some config;
            message := "Request failed with status code 503" |},
     {| _abortControllers := _abortControllers s; signals := signals s;
        abort_calls := abort_calls s; env := (env s + n)%nat |}).

(** Two calls in flight under different keys. *)
Definition two_in_flight : State nat :=
  {| _abortControllers := [Some (KSymbol 1, O); Some (KSymbol 2, 1%nat)];
     signals := [None; None]; abort_calls := []; env := O |}.

(** * Properties *)

(** ** The retry loop *)

Section RetryLoop.

Variable Env : Type.
Variable listeners : Ctrl -> State Env -> State Env.
Variable send : AxiosRequestConfig -> State Env -> Outcome * State Env.
Variable sleep : Z -> State Env -> State Env.
Variable this : AxiosWrapperPro Env.
Variable retryConfig : RetryConfig.
Variable requestConfig : AxiosRequestConfig.
Variable configKey : RequestKey.

Local Abbreviation loop :=
  (retry_loop Env listeners send sleep this retryConfig requestConfig configKey).

Lemma loop_returns fuel : forall attempt lastError s,
  (Z.to_nat (count retryConfig - attempt + 1) < fuel)%nat ->
  exists r, loop fuel attempt lastError s = Some r.
Proof.
  induction fuel as [|fuel IH]; intros attempt lastError s Hfuel; [lia|].
  cbn [retry_loop].
  destruct (attempt <=? count retryConfig)%Z eqn:Hle; [|eauto].
  apply Z.leb_le in Hle.
  destruct (_setupAbortController _ _ _ _ _ _) as [finalConfig s2].
  destruct (send finalConfig s2) as [[result|error] s3]; [eauto|].
  destruct (attempt =? count retryConfig)%Z eqn:Hlast; cbn [orb]; [eauto|].
  destruct (negb (condition retryConfig error) || isCancel error); [eauto|].
  apply Z.eqb_neq in Hlast.
  match goal with
  | |- context [loop fuel ?a ?e ?st] => destruct (IH a e st) as [r Hr]; [lia|]
  end.
  rewrite Hr. cbn [and_then]. eauto.
Qed.


Lemma loop_shape fuel : forall attempt lastError s r,
  (attempt <= count retryConfig)%Z ->
  loop fuel attempt lastError s = Some r ->
  shape Env retryConfig attempt r.
Proof.
  induction fuel as [|fuel IH]; intros attempt lastError s r Hle; [discriminate|].
  cbn [retry_loop].
  destruct (attempt <=? count retryConfig)%Z eqn:Hleb;
    [|apply Z.leb_gt in Hleb; lia].
  destruct (_setupAbortController _ _ _ _ _ _) as [finalConfig s2].
  destruct (send finalConfig s2) as [[result|error] s3].
  - intros [= <-]. exists [], (finalConfig, Ok result). cbn.
    repeat split; auto. lia.
  - destruct (attempt =? count retryConfig)%Z eqn:Hlast; cbn [orb].
    + apply Z.eqb_eq in Hlast. intros [= <-].
      exists [], (finalConfig, Err error). cbn. repeat split; auto; lia.
    + apply Z.eqb_neq in Hlast.
      destruct (negb (condition retryConfig error) || isCancel error) eqn:Hstop.
      * intros [= <-]. exists [], (finalConfig, Err error). cbn.
        repeat split; auto; [lia|]. left.
        destruct (condition retryConfig error), (isCancel error); auto; discriminate.
      * match goal with
        | |- context [loop fuel ?a ?e ?st] =>
            destruct (loop fuel a e st) as [r'|] eqn:Hr'; [|discriminate]
        end.
        cbn [and_then]. intros [= <-].
        apply IH in Hr'; [|lia].
        destruct Hr' as (pre & last & Hsent & Hpre & Hlen & Hend & Hset).
        exists ((finalConfig, Err error) :: pre), last. cbn [sent settled].
        rewrite Hsent. cbn [List.length]. repeat split; auto.
        -- constructor; auto. cbn.
           destruct (condition retryConfig error), (isCancel error); auto; discriminate.
        -- lia.
        -- destruct Hend as [Hend|Hend]; [left; auto|right; lia].
  Qed.

End RetryLoop.

(** ** Transport invocations and the final outcome of [request] *)

Section Request.

Variable Env : Type.
Variable listeners : Ctrl -> State Env -> State Env.
Variable send : AxiosRequestConfig -> State Env -> Outcome * State Env.
Variable sleep : Z -> State Env -> State Env.
Variable this : AxiosWrapperPro Env.

Local Abbreviation call := (request Env listeners send sleep this).
Local Abbreviation policy_of := (merged_retry Env this).

(** [request] returns for every policy: the fuel it gives the loop is
    enough. *)
Lemma request_returns method_ url_ config s :
  exists r, call method_ url_ config s = Some r.
Proof.
  unfold request. apply loop_returns. unfold loop_fuel. lia.
Qed.

Lemma request_shape method_ url_ config s r :
  (0 <= count (policy_of config))%Z ->
  call method_ url_ config s = Some r ->
  shape Env (policy_of config) 0 r.
Proof.
  intros Hcount Hr. unfold request in Hr.
  eapply loop_shape; eauto.
Qed.

End Request.

Lemma app_one_inv {A} (pre pre' post : list A) (x last : A) :
  (pre ++ x :: post = pre' ++ [last])%list ->
  (post = [] /\ x = last /\ pre = pre') \/ In x pre'.
Proof.
  intros E. destruct post as [|y post] using rev_ind.
  - apply app_inj_tail in E. destruct E; auto.
  - right. clear IHpost.
    replace (pre ++ x :: post ++ [y])%list with ((pre ++ x :: post) ++ [y])%list in E
      by (rewrite <- app_assoc; reflexivity).
    apply app_inj_tail in E. destruct E as [<- _].
    apply in_or_app. right. left. reflexivity.
Qed.





(** *** The trace and the transport *)

Section Answers.

Variable Env : Type.
Variable listeners : Ctrl -> State Env -> State Env.
Variable send : AxiosRequestConfig -> State Env -> Outcome * State Env.
Variable sleep : Z -> State Env -> State Env.
Variable this : AxiosWrapperPro Env.
Variable retryConfig : RetryConfig.
Variable requestConfig : AxiosRequestConfig.
Variable configKey : RequestKey.

Local Abbreviation loop :=
  (retry_loop Env listeners send sleep this retryConfig requestConfig configKey).

(** Every entry of the trace is what [send] answered. *)
Lemma loop_answered fuel : forall attempt lastError s r,
  loop fuel attempt lastError s = Some r -> Forall (answered send) (sent r).
Proof.
  induction fuel as [|fuel IH]; intros attempt lastError s r; [discriminate|].
  cbn [retry_loop].
  destruct (attempt <=? count retryConfig)%Z; [|intros [= <-]; constructor].
  destruct (_setupAbortController _ _ _ _ _ _) as [finalConfig s2].
  destruct (send finalConfig s2) as [outcome s3] eqn:Hsend.
  assert (Hans : answered send (finalConfig, outcome)).
  { exists s2. cbn [fst snd]. rewrite Hsend. reflexivity. }
  destruct outcome as [result|error].
  - intros [= <-]. constructor; [exact Hans|constructor].
  - destruct ((attempt =? count retryConfig)%Z || negb (condition retryConfig error)
              || isCancel error).
    + intros [= <-]. constructor; [exact Hans|constructor].
    + match goal with
      | |- context [loop fuel ?a ?e ?st] =>
          destruct (loop fuel a e st) as [r'|] eqn:Hr'; [|discriminate]
      end.
      cbn [and_then]. intros [= <-]. constructor; [exact Hans|].
      eapply IH, Hr'.
Qed.

(** The last entry of the trace is a call of [send] whose outcome settles
    the promise and after which only the entry of the key is deleted. *)
Lemma loop_last fuel : forall attempt lastError s r,
  (attempt <= count retryConfig)%Z ->
  loop fuel attempt lastError s = Some r ->
  exists earlier c o s_sent s_back,
    sent r = (earlier ++ [(c, o)])%list /\
    send c s_sent = (o, s_back) /\
    settled r = settles o /\
    final r = match o with
              | Ok _ => s_back
              | Err _ => registry_delete Env configKey s_back
              end.
Proof.
  induction fuel as [|fuel IH]; intros attempt lastError s r Hle; [discriminate|].
  cbn [retry_loop].
  destruct (attempt <=? count retryConfig)%Z eqn:Hleb;
    [|apply Z.leb_gt in Hleb; lia].
  destruct (_setupAbortController _ _ _ _ _ _) as [finalConfig s2].
  destruct (send finalConfig s2) as [[result|error] s3] eqn:Hsend.
  - intros [= <-]. exists [], finalConfig, (Ok result), s2, s3. auto.
  - destruct (attempt =? count retryConfig)%Z eqn:Hlast; cbn [orb].
    + intros [= <-]. exists [], finalConfig, (Err error), s2, s3. auto.
    + apply Z.eqb_neq in Hlast.
      destruct (negb (condition retryConfig error) || isCancel error).
      * intros [= <-]. exists [], finalConfig, (Err error), s2, s3. auto.
      * match goal with
        | |- context [loop fuel ?a ?e ?st] =>
            destruct (loop fuel a e st) as [r'|] eqn:Hr'; [|discriminate]
        end.
        cbn [and_then]. intros [= <-].
        apply IH in Hr'; [|lia].
        destruct Hr' as (earlier & c & o & s_sent & s_back & Hsent & Hcall & Hset & Hfin).
        exists ((finalConfig, Err error) :: earlier), c, o, s_sent, s_back.
        cbn [sent settled final]. rewrite Hsent. auto.
Qed.

(** The first entry of the trace is [send] on the configuration built in
    the state the loop starts from. *)
Lemma loop_first fuel attempt lastError s r :
  (attempt <= count retryConfig)%Z ->
  loop fuel attempt lastError s = Some r ->
  exists rest,
    sent r =
      (fst (_setupAbortController Env listeners this requestConfig (Some configKey)
              (if (0 <? attempt)%Z then registry_delete Env configKey s else s)),
       fst (send
              (fst (_setupAbortController Env listeners this requestConfig (Some configKey)
                      (if (0 <? attempt)%Z then registry_delete Env configKey s else s)))
              (snd (_setupAbortController Env listeners this requestConfig (Some configKey)
                      (if (0 <? attempt)%Z then registry_delete Env configKey s else s)))))
      :: rest.
Proof.
  destruct fuel as [|fuel]; intros Hle; [discriminate|].
  cbn [retry_loop].
  destruct (attempt <=? count retryConfig)%Z eqn:Hleb;
    [|apply Z.leb_gt in Hleb; lia].
  destruct (_setupAbortController _ _ _ _ _ _) as [finalConfig s2]. cbn [fst snd].
  destruct (send finalConfig s2) as [[result|error] s3]; cbn [fst].
  - intros [= <-]. eexists. reflexivity.
  - destruct ((attempt =? count retryConfig)%Z || negb (condition retryConfig error)
              || isCancel error).
    + intros [= <-]. eexists. reflexivity.
    + match goal with
      | |- context [loop fuel ?a ?e ?st] =>
          destruct (loop fuel a e st) as [r'|]; [|discriminate]
      end.
      cbn [and_then]. intros [= <-]. eexists. reflexivity.
Qed.

End Answers.

(** C8: when the count is a non-negative integer, every entry of the trace
    is an answer of the transport, the first one to the configuration built
    in the state of the call, and the promise settles on the outcome of the
    last transport invocation alone: if that attempt failed, the rejection
    carries the error [send] gave, as thrown, and only the entry of the key
    is deleted after it.  An error the condition rejects, at whatever
    attempt, is that last error. *)
Theorem final_error_is_last_attempt_error :
  forall (Env : Type) listeners send sleep (this : AxiosWrapperPro Env)
         method_ url_ config s,
    (0 <= count (merged_retry Env this config))%Z ->
    exists r earlier c o s_sent s_back,
      request Env listeners send sleep this method_ url_ config s = Some r /\
      sent r = (earlier ++ [(c, o)])%list /\
      Forall (answered send) (sent r) /\
      (exists rest,
          sent r = fst (first_attempt listeners send this method_ url_ config s) :: rest) /\
      send c s_sent = (o, s_back) /\
      settled r = match o with
                  | Ok result => Resolved result
                  | Err e => Rejected (Some e)
                  end /\
      final r = match o with
                | Ok _ => s_back
                | Err _ => registry_delete Env (call_key this method_ url_ config) s_back
                end /\
      (forall pre c' e rest,
          sent r = (pre ++ (c', Err e) :: rest)%list ->
          condition (merged_retry Env this config) e = false ->
          rest = [] /\ settled r = Rejected (Some e)).
Proof.
  intros Env listeners send sleep this method_ url_ config s Hcount.
  destruct (request_returns Env listeners send sleep this method_ url_ config s) as [r Hr].
  destruct (request_shape _ _ _ _ _ _ _ _ _ _ Hcount Hr)
    as (pre & last & Hsent & Hpre & _ & _ & Hset).
  pose proof Hr as Hloop. unfold request in Hloop.
  destruct (loop_last _ _ _ _ _ _ _ _ _ _ _ _ _ Hcount Hloop)
    as (earlier & c & o & s_sent & s_back & Hsent' & Hcall & Hset' & Hfin).
  exists r, earlier, c, o, s_sent, s_back.
  split; [exact Hr|]. split; [exact Hsent'|].
  split; [eapply loop_answered, Hloop|].
  split.
  { destruct (loop_first _ _ _ _ _ _ _ _ _ _ _ _ _ Hcount Hloop) as [rest Hfirst].
    exists rest. rewrite Hfirst. unfold first_attempt, call_key. cbn [Z.ltb Z.compare].
    destruct (_setupAbortController _ _ _ _ _ _) as [finalConfig s1]. cbn [fst snd].
    destruct (send finalConfig s1). reflexivity. }
  split; [exact Hcall|]. split; [exact Hset'|]. split; [exact Hfin|].
  intros pre' c' e rest Hat Hrej.
  rewrite Hat in Hsent.
  destruct (app_one_inv _ _ _ _ _ Hsent) as [(-> & <- & _)|Hin].
  - split; [reflexivity|]. rewrite Hset. reflexivity.
  - exfalso. rewrite Forall_forall in Hpre. apply Hpre in Hin.
    unfold retryable in Hin. cbn [snd] in Hin. rewrite Hrej in Hin. discriminate.
Qed.

Lemma final_error_is_last_attempt_error_witness :
  exists r, run_scripted three_failures two_retries = Some r /\
            map snd (sent r) =
              [Err (server_error 500); Err (server_error 502); Err (server_error 503)] /\
            settled r = Rejected (Some (server_error 503)) /\
            Forall (answered (scripted three_failures)) (sent r).
Proof.
  destruct (final_error_is_last_attempt_error nat quiet (scripted three_failures)
              immediate default_client "GET" "/users" two_retries fresh_state)
    as (r & earlier & c & o & s_sent & s_back & Hr & Hsent & Hans & _).
  - vm_compute. discriminate.
  - exists r. split; [exact Hr|].
    split; [|split; [|exact Hans]];
      vm_compute in Hr; injection Hr as <-; reflexivity.
Defined.

(** C10: with a negative count the loop body is never entered: no transport
    invocation, the state of the instance as it was, and a rejection with
    [null]. *)
Theorem negative_count_rejects_with_null :
  forall (Env : Type) listeners send sleep (this : AxiosWrapperPro Env)
         method_ url_ config s,
    (count (merged_retry Env this config) < 0)%Z ->
    request Env listeners send sleep this method_ url_ config s =
      Some {| settled := Rejected None; sent := []; final := s |}.
Proof.
  intros Env listeners send sleep this method_ url_ config s Hneg.
  unfold request, loop_fuel. cbn [retry_loop].
  destruct (0 <=? count (merged_retry Env this config))%Z eqn:Hle; [|reflexivity].
  apply Z.leb_le in Hle. lia.
Qed.

Lemma negative_count_rejects_with_null_witness :
  run_scripted (fun _ => Err (server_error 503)) negative_count =
    Some {| settled := Rejected None; sent := []; final := fresh_state |}.
Proof.
  apply (negative_count_rejects_with_null nat quiet
           (scripted (fun _ => Err (server_error 503))) immediate
           default_client "GET" "/users" negative_count fresh_state).
  vm_compute. reflexivity.
Defined.

(** ** The three layers of the retry policy *)

(** C9: for an instance built from [options], the policy [request] applies
    to a call is the field-by-field merge of the built-in default, the
    [retry] option of the instance and the [retry] of the call, the later
    layer winning, a layer that is not given counting for nothing;
    [request] runs its loop under exactly that policy. *)
Theorem retry_policy_is_three_layer_merge :
  forall (Env : Type) listeners send sleep (options : AxiosWrapperProOptions Env) (e : Env)
         method_ url_ config s,
    merged_retry Env (fst (constructor options e)) config =
      three_layer_policy (opt_retry options) (retry config) /\
    request Env listeners send sleep (fst (constructor options e)) method_ url_ config s =
      retry_loop Env listeners send sleep (fst (constructor options e))
        (three_layer_policy (opt_retry options) (retry config))
        (build_requestConfig method_ url_ (restConfig config))
        (match requestKey config with
         | Some k => k
         | None =>
             KString (_generateRequestKey (opt_paramsSerializer options)
                        (build_requestConfig method_ url_ (restConfig config)))
         end)
        (loop_fuel (three_layer_policy (opt_retry options) (retry config)))
        0 None s.
Proof.
  intros Env listeners send sleep options e method_ url_ config s.
  assert (Hmerge : merged_retry Env (fst (constructor options e)) config =
                   three_layer_policy (opt_retry options) (retry config)).
  { unfold merged_retry, three_layer_policy, spread_retry, layered, layer_field, or_empty.
    cbn [fst constructor _retryConfig count delay condition].
    destruct (retry config) as [[[c|] [d|] [f|]]|];
      destruct (opt_retry options) as [[[c'|] [d'|] [f'|]]|]; reflexivity. }
  split; [exact Hmerge|].
  unfold request. rewrite Hmerge. reflexivity.
Qed.

Lemma retry_policy_is_three_layer_merge_witness :
  count (merged_retry nat (fst (constructor instance_layer O)) call_layer) = 5%Z /\
  delay (merged_retry nat (fst (constructor instance_layer O)) call_layer) = 250%Z /\
  condition (merged_retry nat (fst (constructor instance_layer O)) call_layer)
    (server_error 503) = true /\
  condition (merged_retry nat (fst (constructor instance_layer O)) call_layer)
    (server_error 404) = false /\
  count (merged_retry nat (fst (constructor instance_layer O)) bare_call) = 3%Z /\
  delay (merged_retry nat default_client bare_call) = 1000%Z.
Proof.
  destruct (retry_policy_is_three_layer_merge nat quiet ok_adapter immediate
              instance_layer O "GET" "/users" call_layer fresh_state) as [Hcall _].
  destruct (retry_policy_is_three_layer_merge nat quiet ok_adapter immediate
              instance_layer O "GET" "/users" bare_call fresh_state) as [Hbare _].
  destruct (retry_policy_is_three_layer_merge nat quiet ok_adapter immediate
              (mkOptions None None None) O "GET" "/users" bare_call fresh_state)
    as [Hdefault _].
  unfold default_client. rewrite Hcall, Hbare, Hdefault.
  repeat split.
Defined.

(** ** The cancellation registry *)

Lemma RequestKey_eqb_spec (a b : RequestKey) : reflect (a = b) (RequestKey_eqb a b).
Proof.
  destruct a as [x|x], b as [y|y]; cbn; try (constructor; discriminate).
  - destruct (String.eqb_spec x y); constructor; congruence.
  - destruct (Nat.eqb_spec x y); constructor; congruence.
Qed.

Lemma RequestKey_eqb_refl (a : RequestKey) : RequestKey_eqb a a = true.
Proof. destruct (RequestKey_eqb_spec a a); congruence. Qed.

Section RegistryFacts.

Context {V : Type}.
Implicit Types (m : JsMap.t V) (key : RequestKey).

Lemma keys_cons_live m k v : JsMap.keys (Some (k, v) :: m) = k :: JsMap.keys m.
Proof. reflexivity. Qed.


Lemma has_in_keys m key : JsMap.has m key = true <-> In key (JsMap.keys m).
Proof.
  unfold JsMap.has. induction m as [|[[k v0]|] m IH]; cbn.
  - split; [discriminate|tauto].
  - destruct (RequestKey_eqb_spec k key) as [->|Hne]; cbn.
    + split; auto.
    + rewrite IH. split; [auto|intros [E|H]; [contradiction|exact H]].
  - exact IH.
Qed.

Lemma get_none_not_in m key : JsMap.get m key = None <-> ~ In key (JsMap.keys m).
Proof.
  induction m as [|[[k v0]|] m IH]; cbn.
  - tauto.
  - destruct (RequestKey_eqb_spec k key) as [->|Hne].
    + split; [discriminate|intros H; exfalso; apply H; left; reflexivity].
    + rewrite IH. split; [intros H [E|H']; auto|intros H H'; apply H; right; exact H'].
  - exact IH.
Qed.


Lemma get_delete m key k' :
  JsMap.get (JsMap.delete m key) k' =
    if RequestKey_eqb key k' then None else JsMap.get m k'.
Proof.
  unfold JsMap.delete.
  induction m as [|[[k v0]|] m IH]; cbn.
  - destruct (RequestKey_eqb key k'); reflexivity.
  - destruct (RequestKey_eqb_spec k key) as [->|Hne]; cbn.
    + rewrite IH. destruct (RequestKey_eqb key k'); reflexivity.
    + rewrite IH. destruct (RequestKey_eqb_spec key k') as [E|Hne'].
      * rewrite <- E. destruct (RequestKey_eqb_spec k key); [contradiction|reflexivity].
      * reflexivity.
  - exact IH.
Qed.







Lemma get_app_absent m m' key :
  JsMap.get (m ++ m')%list key =
    match JsMap.get m key with
    | Some v => Some v
    | None => JsMap.get m' key
    end.
Proof.
  induction m as [|[[k v0]|] m IH]; cbn; [reflexivity| |exact IH].
  destruct (RequestKey_eqb k key); [reflexivity|exact IH].
Qed.

Lemma get_replace m key v k' :
  JsMap.get (map (fun e => if JsMap.holds key e then Some (key, v) else e) m) k' =
    if RequestKey_eqb key k'
    then match JsMap.get m key with Some _ => Some v | None => None end
    else JsMap.get m k'.
Proof.
  induction m as [|[[k v0]|] m IH]; cbn.
  - destruct (RequestKey_eqb key k'); reflexivity.
  - destruct (RequestKey_eqb_spec k key) as [->|Hne]; cbn.
    + destruct (RequestKey_eqb key k'); [reflexivity|exact IH].
    + rewrite IH. destruct (RequestKey_eqb_spec key k') as [E|Hne'].
      * rewrite <- E. destruct (RequestKey_eqb_spec k key); [contradiction|reflexivity].
      * reflexivity.
  - exact IH.
Qed.

Lemma get_set m key v k' :
  JsMap.get (JsMap.set m key v) k' =
    if RequestKey_eqb key k' then Some v else JsMap.get m k'.
Proof.
  unfold JsMap.set. destruct (JsMap.has m key) eqn:Hhas.
  - rewrite get_replace. destruct (RequestKey_eqb key k'); [|reflexivity].
    destruct (JsMap.get m key) eqn:Hget; [reflexivity|].
    apply get_none_not_in in Hget. apply has_in_keys in Hhas. contradiction.
  - rewrite get_app_absent. cbn.
    destruct (RequestKey_eqb_spec key k') as [E|Hne].
    + rewrite <- E.
      assert (Hnone : JsMap.get m key = None).
      { apply get_none_not_in. intros Hin. apply has_in_keys in Hin. congruence. }
      rewrite Hnone. reflexivity.
    + destruct (JsMap.get m k'); reflexivity.
Qed.


Lemma delete_absent m key : JsMap.get m key = None -> JsMap.delete m key = m.
Proof.
  unfold JsMap.delete.
  induction m as [|[[k v0]|] m IH]; cbn; intros Hget; [reflexivity| |].
  - destruct (RequestKey_eqb k key); [discriminate|]. f_equal. apply IH, Hget.
  - f_equal. apply IH, Hget.
Qed.

Lemma entries_clear m : JsMap.entries (JsMap.clear m) = [].
Proof. induction m as [|e m IH]; cbn; auto. Qed.

End RegistryFacts.

Lemma length_list_set {A} (l : list A) i x : List.length (list_set l i x) = List.length l.
Proof.
  revert i. induction l as [|h t IH]; intros [|i]; cbn; auto.
Qed.

Lemma nth_error_list_set {A} (l : list A) i x j :
  nth_error (list_set l i x) j =
    if (i =? j)%nat then match nth_error l i with Some _ => Some x | None => None end
    else nth_error l j.
Proof.
  revert i j. induction l as [|h t IH]; intros [|i] [|j]; cbn; auto.
  destruct (i =? j)%nat; reflexivity.
Qed.

(** *** Listeners that leave the registry alone *)

Lemma quiet_is_blind (Env : Type) : registry_blind Env quiet.
Proof. intros c s. repeat split. Qed.

Lemma skipn_nth_error {A} (l : list A) i x :
  nth_error l i = Some x -> skipn i l = x :: skipn (S i) l.
Proof.
  revert i. induction l as [|h t IH]; intros [|i]; cbn; try discriminate.
  - intros [= ->]. reflexivity.
  - intros H. rewrite (IH _ H). reflexivity.
Qed.

Section BlindListeners.

Variable Env : Type.
Variable listeners : Ctrl -> State Env -> State Env.

Hypothesis Hblind : registry_blind Env listeners.

Lemma abort_blind c reason (s : State Env) :
  _abortControllers (abort Env listeners c reason s) = _abortControllers s /\
  abort_calls (abort Env listeners c reason s) = (abort_calls s ++ [c])%list /\
  (forall c', nth_error (signals s) c' = Some None ->
              nth_error (signals (abort Env listeners c reason s)) c' =
                if (c =? c')%nat then Some (Some reason) else Some None) /\
  (forall c' r, nth_error (signals s) c' = Some (Some r) ->
                nth_error (signals (abort Env listeners c reason s)) c' = Some (Some r)) /\
  List.length (signals (abort Env listeners c reason s)) = List.length (signals s).
Proof.
  unfold abort. cbn [signals _abortControllers abort_calls env].
  destruct (nth_error (signals s) c) as [[r|]|] eqn:Hc.
  - cbn. repeat split; auto.
    intros c' Hc'. destruct (Nat.eqb_spec c c'); [congruence|exact Hc'].
  - match goal with |- context [listeners c ?st] => destruct (Hblind c st) as (-> & -> & ->) end.
    cbn. repeat split; auto using length_list_set.
    + intros c' Hc'. rewrite nth_error_list_set.
      destruct (Nat.eqb_spec c c') as [<-|Hne]; [rewrite Hc; reflexivity|exact Hc'].
    + intros c' r Hc'. rewrite nth_error_list_set.
      destruct (Nat.eqb_spec c c') as [<-|Hne]; [congruence|exact Hc'].
  - cbn. repeat split; auto.
    intros c' Hc'. destruct (Nat.eqb_spec c c'); [congruence|exact Hc'].
Qed.

Lemma forEach_blind reason fuel : forall index (s : State Env),
  (List.length (_abortControllers s) - index < fuel)%nat ->
  exists s',
    forEach Env fuel index (fun controller => abort Env listeners controller reason) s = Some s' /\
    _abortControllers s' = _abortControllers s /\
    abort_calls s' =
      (abort_calls s ++ JsMap.values (skipn index (_abortControllers s)))%list /\
    (forall c, nth_error (signals s) c = Some None ->
               In c (JsMap.values (skipn index (_abortControllers s))) ->
               nth_error (signals s') c = Some (Some reason)).
Proof.
  induction fuel as [|fuel IH]; intros index s Hfuel; [lia|].
  cbn [forEach].
  destruct (nth_error (_abortControllers s) index) as [[[k c]|]|] eqn:Hnth.
  - pose proof (skipn_nth_error _ _ _ Hnth) as Hskip.
    assert (Hlt : (index < List.length (_abortControllers s))%nat)
      by (apply nth_error_Some; congruence).
    destruct (abort_blind c reason s) as (Hreg & Hcalls & Hpend & Hdone & _).
    destruct (IH (S index) (abort Env listeners c reason s)) as (s' & Hrun & Hreg' & Hcalls' & Hflags).
    { rewrite Hreg. lia. }
    exists s'. split; [exact Hrun|]. split; [congruence|]. split.
    + rewrite Hcalls', Hcalls, Hreg, Hskip. unfold JsMap.values. cbn.
      rewrite <- app_assoc. reflexivity.
    + intros c' Hc' Hin. rewrite Hskip in Hin. unfold JsMap.values in Hin. cbn in Hin.
      specialize (Hpend c' Hc').
      destruct (Nat.eqb_spec c c') as [E|Hne].
      * clear - Hrun Hpend Hblind.
        revert Hrun Hpend. generalize (abort Env listeners c reason s) as st.
        generalize (S index) as i. clear s.
        induction fuel as [|fuel IHf]; intros i st; cbn [forEach]; [discriminate|].
        destruct (nth_error (_abortControllers st) i) as [[[k' c1]|]|].
        -- intros Hrun Hst. eapply IHf; [exact Hrun|].
           destruct (abort_blind c1 reason st) as (_ & _ & _ & Hkeep & _). eapply Hkeep, Hst.
        -- intros Hrun Hst. eapply IHf; eauto.
        -- intros [= <-] Hst. exact Hst.
      * destruct Hin as [E|Hin]; [contradiction|].
        apply Hflags; [exact Hpend|]. rewrite Hreg. exact Hin.
  - pose proof (skipn_nth_error _ _ _ Hnth) as Hskip.
    assert (Hlt : (index < List.length (_abortControllers s))%nat)
      by (apply nth_error_Some; congruence).
    destruct (IH (S index) s) as (s' & Hrun & Hreg' & Hcalls' & Hflags); [lia|].
    exists s'. split; [exact Hrun|]. split; [exact Hreg'|]. split.
    + rewrite Hcalls', Hskip. reflexivity.
    + intros c' Hc' Hin. rewrite Hskip in Hin. apply Hflags; auto.
  - exists s. split; [reflexivity|]. split; [reflexivity|].
    apply nth_error_None in Hnth. rewrite skipn_all2 by exact Hnth.
    split; [cbn; rewrite app_nil_r; reflexivity|]. intros c _ [].
Qed.

End BlindListeners.




(** ** [cancelAllRequests] *)

Lemma get_clear {V} (m : JsMap.t V) key : JsMap.get (JsMap.clear m) key = None.
Proof. induction m as [|e m IH]; cbn; auto. Qed.

(** X17: when the [abort] listeners leave the registry alone,
    [cancelAllRequests] on a registry of N entries calls [abort] on exactly
    the N registered handles, in insertion order, which aborts each pending
    one with the reason given, leaves the registry empty and returns N. *)
Theorem cancelAll_aborts_registered_handles :
  forall (Env : Type) listeners reason (s : State Env) fuel,
    registry_blind Env listeners ->
    (List.length (_abortControllers s) < fuel)%nat ->
    exists s',
      cancelAllRequests Env listeners fuel reason s =
        Some (JsMap.size (_abortControllers s), s') /\
      JsMap.size (_abortControllers s') = O /\
      (forall k, JsMap.get (_abortControllers s') k = None) /\
      abort_calls s' = (abort_calls s ++ JsMap.values (_abortControllers s))%list /\
      List.length (JsMap.values (_abortControllers s)) = JsMap.size (_abortControllers s) /\
      (forall c, In c (JsMap.values (_abortControllers s)) ->
                 nth_error (signals s) c = Some None ->
                 nth_error (signals s') c = Some (Some (or_default reason DEFAULT_REASON))).
Proof.
  intros Env listeners reason s fuel Hblind Hfuel.
  destruct (forEach_blind Env listeners Hblind (or_default reason DEFAULT_REASON) fuel O s)
    as (s1 & Hrun & Hreg & Hcalls & Hflags); [lia|].
  unfold cancelAllRequests. rewrite Hrun.
  eexists. split; [reflexivity|].
  cbn [with_registry _abortControllers abort_calls signals].
  split; [unfold JsMap.size; rewrite entries_clear; reflexivity|].
  split; [intros k; apply get_clear|].
  split; [exact Hcalls|].
  split; [unfold JsMap.values, JsMap.size; apply length_map|].
  intros c Hin Hpending. apply Hflags; assumption.
Qed.

Lemma cancelAll_aborts_registered_handles_witness :
  exists s',
    cancelAllRequests nat quiet 4 (Some "bye") two_pending = Some (2%nat, s') /\
    JsMap.size (_abortControllers s') = O /\
    abort_calls s' = [1%nat; O; 2%nat] /\
    signals s' = [Some "bye"; Some DEFAULT_REASON; Some "bye"].
Proof.
  destruct (cancelAll_aborts_registered_handles nat quiet (Some "bye") two_pending 4)
    as (s' & Hrun & Hsize & _ & Hcalls & _ & _).
  - apply quiet_is_blind.
  - cbn. lia.
  - exists s'. split; [exact Hrun|]. split; [exact Hsize|]. split; [exact Hcalls|].
    vm_compute in Hrun. injection Hrun as <-. reflexivity.
Defined.

(** *** Listeners that register during the traversal *)

Lemma nth_error_after_repeat {A} (x y : A) i :
  nth_error (repeat x i ++ [y])%list i = Some y.
Proof.
  rewrite nth_error_app2 by (rewrite repeat_length; lia).
  rewrite repeat_length, Nat.sub_diag. reflexivity.
Qed.

Lemma list_set_after_repeat {A} (x y z : A) i :
  list_set (repeat x i ++ [y])%list i z = (repeat x i ++ [z])%list.
Proof. induction i as [|i IH]; cbn; [reflexivity|rewrite IH; reflexivity]. Qed.

Lemma repeat_snoc {A} (x : A) i : (repeat x i ++ [x])%list = repeat x (S i).
Proof. induction i as [|i IH]; cbn; [reflexivity|rewrite IH; reflexivity]. Qed.

Lemma length_after_repeat {A} (x y : A) i : List.length (repeat x i ++ [y])%list = S i.
Proof. rewrite length_app, repeat_length. cbn. lia. Qed.

Lemma get_after_empty {V} i (m : JsMap.t V) key :
  JsMap.get (repeat None i ++ m)%list key = JsMap.get m key.
Proof. induction i as [|i IH]; cbn; auto. Qed.

Lemma delete_after_empty {V} i (m : JsMap.t V) key :
  JsMap.delete (repeat None i ++ m)%list key = (repeat None i ++ JsMap.delete m key)%list.
Proof.
  unfold JsMap.delete. induction i as [|i IH]; cbn; [reflexivity|rewrite IH; reflexivity].
Qed.

Lemma has_only_empty {V} i key : JsMap.has (repeat (@None (RequestKey * V)) i) key = false.
Proof. unfold JsMap.has. induction i as [|i IH]; cbn; auto. Qed.

(** Aborting the pending handle under [reissue_always] leaves the registry
    one slot longer, with a pending handle again. *)
Lemma abort_spinning i calls :
  abort nat reissue_always i DEFAULT_REASON (spinning i calls) =
    spinning (S i) (calls ++ [i; i])%list.
Proof.
  unfold abort, spinning. cbn [signals _abortControllers abort_calls env].
  rewrite nth_error_after_repeat, list_set_after_repeat, repeat_snoc.
  unfold reissue_always, _setupAbortController, cancelRequest.
  cbn [_abortControllers]. rewrite get_after_empty.
  cbn [JsMap.get RequestKey_eqb]. rewrite String.eqb_refl.
  unfold abort. cbn [signals _abortControllers abort_calls env or_default].
  replace (nth_error (repeat (Some DEFAULT_REASON) (S i)) i) with (Some (Some DEFAULT_REASON))
    by (rewrite <- repeat_snoc, nth_error_after_repeat; reflexivity).
  unfold registry_delete, with_registry, new_AbortController.
  cbn [snd fst signals _abortControllers abort_calls env].
  rewrite delete_after_empty. cbn [JsMap.delete map JsMap.holds RequestKey_eqb].
  rewrite String.eqb_refl, repeat_snoc.
  unfold JsMap.set. rewrite has_only_empty, repeat_length.
  rewrite <- app_assoc. reflexivity.
Qed.

Lemma forEach_spinning fuel : forall i calls,
  forEach nat fuel i (fun controller => abort nat reissue_always controller DEFAULT_REASON)
    (spinning i calls) = None.
Proof.
  induction fuel as [|fuel IH]; intros i calls; [reflexivity|].
  cbn [forEach]. unfold spinning at 1. cbn [_abortControllers].
  rewrite nth_error_after_repeat. rewrite abort_spinning. apply IH.
Qed.

(** C5: [cancelAllRequests] counts, then traverses the live map, then
    clears; nothing is a snapshot.  With one entry whose handle re-registers
    the key when aborted, the call returns 1 while two handles end up
    aborted, the second one registered during the traversal and reached by
    [forEach]; when every handle registered under the key does so, the
    traversal never ends, whatever the number of steps allowed. *)
Theorem cancelAll_traverses_the_live_map :
  JsMap.size (_abortControllers one_pending) = 1%nat /\
  (exists s',
     cancelAllRequests nat reissue 8 None one_pending = Some (1%nat, s') /\
     abort_calls s' = [O; O; 1%nat] /\
     signals s' = [Some DEFAULT_REASON; Some DEFAULT_REASON] /\
     JsMap.size (_abortControllers s') = O) /\
  (forall fuel, cancelAllRequests nat reissue_always fuel None one_pending = None).
Proof.
  split; [reflexivity|]. split.
  - eexists. split; [vm_compute; reflexivity|]. repeat split.
  - intros fuel. unfold cancelAllRequests.
    change one_pending with (spinning O []). cbn [or_default].
    rewrite forEach_spinning. reflexivity.
Qed.

(** ** The installed response hooks *)

Section ResponseHooks.

Variable Env : Type.
Variable this : AxiosWrapperPro Env.

(** With a truthy key in the configuration, the user hook runs in the
    state from which that key has been deleted. *)
Lemma installed_response_deletes_key res (s : State Env) k :
  _requestKey (res_config res) = Some k ->
  key_truthy (Some k) = true ->
  installed_response Env this res s =
    Interceptor.response (_getInterceptors Env this) res (registry_delete Env k s) /\
  JsMap.get (_abortControllers (registry_delete Env k s)) k = None.
Proof.
  intros Hkey Htruthy. unfold installed_response, cleanup.
  rewrite Hkey, Htruthy. split; [reflexivity|].
  cbn. rewrite get_delete, RequestKey_eqb_refl. reflexivity.
Qed.

Lemma installed_responseError_deletes_key error (s : State Env) config k :
  err_config error = Some config ->
  _requestKey config = Some k ->
  key_truthy (Some k) = true ->
  installed_responseError Env this error s =
    Interceptor.responseError (_getInterceptors Env this) error (registry_delete Env k s) /\
  JsMap.get (_abortControllers (registry_delete Env k s)) k = None.
Proof.
  intros Hcfg Hkey Htruthy. unfold installed_responseError, cleanup.
  rewrite Hcfg, Hkey, Htruthy. split; [reflexivity|].
  cbn. rewrite get_delete, RequestKey_eqb_refl. reflexivity.
Qed.

End ResponseHooks.

(** X2, the part of C7 the code meets: for a truthy key [k] (a non-empty
    string or a symbol), whatever else the configuration of the completed
    call holds, each installed hook calls the user hook in the state from
    which exactly the entry of [k] has been deleted. *)
Theorem response_hooks_delete_stored_key :
  forall (Env : Type) (this : AxiosWrapperPro Env) (s : State Env) k,
    key_truthy (Some k) = true ->
    (forall res,
        _requestKey (res_config res) = Some k ->
        installed_response Env this res s =
          Interceptor.response (_getInterceptors Env this) res (registry_delete Env k s)) /\
    (forall error config,
        err_config error = Some config ->
        _requestKey config = Some k ->
        installed_responseError Env this error s =
          Interceptor.responseError (_getInterceptors Env this) error
            (registry_delete Env k s)) /\
    JsMap.get (_abortControllers (registry_delete Env k s)) k = None /\
    (forall k', k' <> k ->
                JsMap.get (_abortControllers (registry_delete Env k s)) k' =
                JsMap.get (_abortControllers s) k').
Proof.
  intros Env this s k Htruthy. repeat split.
  - intros res Hkey. apply installed_response_deletes_key; assumption.
  - intros error config Hcfg Hkey.
    eapply installed_responseError_deletes_key; eassumption.
  - cbn. rewrite get_delete, RequestKey_eqb_refl. reflexivity.
  - intros k' Hne. cbn. rewrite get_delete.
    destruct (RequestKey_eqb_spec k k'); [congruence|reflexivity].
Qed.

Lemma response_hooks_delete_stored_key_witness :
  installed_response nat default_client
    {| status := 200; res_data := JNull;
       res_config := fst (_setupAbortController nat quiet default_client plain_config
                            (Some (KString "k")) one_pending) |}
    one_pending =
  (Ok {| status := 200; res_data := JNull;
         res_config := fst (_setupAbortController nat quiet default_client plain_config
                              (Some (KString "k")) one_pending) |},
   registry_delete nat (KString "k") one_pending) /\
  JsMap.get (_abortControllers (registry_delete nat (KString "k") one_pending)) (KString "k")
    = None.
Proof.
  destruct (response_hooks_delete_stored_key nat default_client one_pending (KString "k"))
    as (Hok & _ & Hgone & _).
  - reflexivity.
  - split; [|exact Hgone]. rewrite Hok; reflexivity.
Defined.

(** C7 at the empty string: [_setupAbortController] registers the key
    (the test is [??]), the installed response hook skips the deletion (the
    test is [key &&]) and hands the user hook a registry that still holds
    it; after a successful [request] the entry is left behind. With the key
    ["k"] the same call leaves the registry empty. *)
Theorem empty_string_key_survives_response_hook :
  (exists cfg s,
      _setupAbortController nat quiet default_client plain_config (Some (KString "")) fresh_state
        = (cfg, s) /\
      _requestKey cfg = Some (KString "") /\
      JsMap.get (_abortControllers s) (KString "") = Some O /\
      installed_response nat default_client
        {| status := 200; res_data := JNull; res_config := cfg |} s
        = (Ok {| status := 200; res_data := JNull; res_config := cfg |}, s)) /\
  registry_after
    (request nat quiet (instance_request default_client ok_adapter) immediate default_client
       "GET" "/users" (once (KString "")) fresh_state) = Some [(KString "", O)] /\
  registry_after
    (request nat quiet (instance_request default_client ok_adapter) immediate default_client
       "GET" "/users" (once (KString "k")) fresh_state) = Some [].
Proof.
  split; [|split; reflexivity].
  eexists _, _. split; [reflexivity|]. repeat split.
Qed.

(** ** The key generator and the cache-busting parameter *)

Lemma delete_missing (o : Props) key : ~ In key (Js.keys o) -> Js.delete o key = o.
Proof.
  induction o as [|[k v] o IH]; cbn; intros Hnot; [reflexivity|].
  destruct (String.eqb_spec k key) as [->|Hne].
  - exfalso. apply Hnot. left. reflexivity.
  - f_equal. apply IH. intros H. apply Hnot. right. exact H.
Qed.

Lemma get_missing (o : Props) key : ~ In key (Js.keys o) -> Js.get o key = JUndefined.
Proof.
  induction o as [|[k v] o IH]; cbn; intros Hnot; [reflexivity|].
  destruct (String.eqb_spec k key) as [->|Hne].
  - exfalso. apply Hnot. left. reflexivity.
  - apply IH. intros H. apply Hnot. right. exact H.
Qed.

Lemma stripped_params_strippable config o :
  strippable o ->
  stripped_params (with_params config (JObj o)) = Some (Js.delete o "_t").
Proof.
  unfold stripped_params. cbn. intros [Htruthy|Hmissing].
  - rewrite Htruthy. reflexivity.
  - rewrite (get_missing _ _ Hmissing). cbn. rewrite (delete_missing _ _ Hmissing). reflexivity.
Qed.

(** X1, the part of C4 the code meets: two configurations that differ only
    in a [_t] that is truthy where present have the same key, under the
    stable serializer and under any custom one. *)
Theorem truthy_timestamp_does_not_change_key :
  forall this_serializer config o1 o2,
    Js.delete o1 "_t" = Js.delete o2 "_t" ->
    strippable o1 -> strippable o2 ->
    _generateRequestKey this_serializer (with_params config (JObj o1)) =
    _generateRequestKey this_serializer (with_params config (JObj o2)).
Proof.
  intros this_serializer config o1 o2 Hsame H1 H2.
  unfold _generateRequestKey.
  rewrite (stripped_params_strippable config o1 H1).
  rewrite (stripped_params_strippable config o2 H2).
  rewrite Hsame. reflexivity.
Qed.

Lemma truthy_timestamp_does_not_change_key_witness :
  _generateRequestKey None (get_users (with_timestamp (JNum 1700000000000))) =
  _generateRequestKey None (get_users [("page", JNum 1)]).
Proof.
  apply (truthy_timestamp_does_not_change_key None (get_users [])
           (with_timestamp (JNum 1700000000000)) [("page", JNum 1)]).
  - reflexivity.
  - left. reflexivity.
  - right. cbn. intros [H|[]]. discriminate.
Defined.

(** C4 at a falsy [_t]: the test [params?._t] is false for [0], the
    property stays in the copy, and the key differs from the key of the same
    request without [_t], and from the key of the same request with a truthy
    [_t]. *)
Theorem falsy_timestamp_changes_key :
  _generateRequestKey None (get_users (with_timestamp (JNum 0))) =
    "GET|/users|{" ++ Js.dquote ++ "_t" ++ Js.dquote ++ ":0,"
                   ++ Js.dquote ++ "page" ++ Js.dquote ++ ":1}|" /\
  _generateRequestKey None (get_users [("page", JNum 1)]) =
    "GET|/users|{" ++ Js.dquote ++ "page" ++ Js.dquote ++ ":1}|" /\
  _generateRequestKey None (get_users (with_timestamp (JNum 1700000000000))) =
    "GET|/users|{" ++ Js.dquote ++ "page" ++ Js.dquote ++ ":1}|" /\
  (_generateRequestKey None (get_users (with_timestamp (JNum 0))) =?
   _generateRequestKey None (get_users [("page", JNum 1)])) = false.
Proof. repeat split. Qed.

(** ** The stable serializer *)


Section SortFacts.

Local Abbreviation le := (fun a b : string => (a <=? b)%string = true).







End SortFacts.



(** *** Arrays of plain values *)










Lemma of_Z_parses n : NilZero.int_of_string (Js.of_Z n) = Some (Z.to_int n).
Proof.
  unfold Js.of_Z. apply NilZero.isi.
  - destruct n; cbn; try discriminate.
    intros [= E]. exact (Unsigned.to_uint_nonnil _ E).
  - destruct n; cbn; try discriminate.
    intros [= E]. exact (Unsigned.to_uint_nonnil _ E).
Qed.














(** * Further properties *)

(** ** What [request] sends and what it leaves in the registry *)

Section RetryLoopMore.

Variable Env : Type.
Variable listeners : Ctrl -> State Env -> State Env.
Variable send : AxiosRequestConfig -> State Env -> Outcome * State Env.
Variable sleep : Z -> State Env -> State Env.
Variable this : AxiosWrapperPro Env.
Variable retryConfig : RetryConfig.
Variable requestConfig : AxiosRequestConfig.
Variable configKey : RequestKey.

Lemma setup_attempt_of (s : State Env) :
  attempt_of requestConfig configKey
    (fst (_setupAbortController Env listeners this requestConfig (Some configKey) s)).
Proof.
  unfold _setupAbortController, attempt_of. cbn. repeat split; eauto.
Qed.

Lemma loop_sends_attempts fuel : forall attempt lastError s r,
  retry_loop Env listeners send sleep this retryConfig requestConfig configKey
    fuel attempt lastError s = Some r ->
  Forall (fun c => attempt_of requestConfig configKey (fst c)) (sent r).
Proof.
  induction fuel as [|fuel IH]; intros attempt lastError s r; [discriminate|].
  cbn [retry_loop].
  destruct (attempt <=? count retryConfig)%Z; [|intros [= <-]; constructor].
  match goal with
  | |- context [_setupAbortController Env listeners this requestConfig (Some configKey) ?st] =>
      pose proof (setup_attempt_of st) as Hcfg;
      destruct (_setupAbortController Env listeners this requestConfig (Some configKey) st)
        as [finalConfig s2]
  end.
  cbn [fst] in Hcfg.
  destruct (send finalConfig s2) as [[result|error] s3].
  - intros [= <-]. constructor; [exact Hcfg|constructor].
  - match goal with |- context [if ?b then _ else _] => destruct b end.
    + intros [= <-]. constructor; [exact Hcfg|constructor].
    + match goal with
      | |- context [retry_loop _ _ _ _ _ _ _ _ fuel ?a ?e ?st] =>
          destruct (retry_loop _ _ _ _ _ _ _ _ fuel a e st) as [r'|] eqn:Hr'; [|discriminate]
      end.
      cbn [and_then]. intros [= <-]. constructor; [exact Hcfg|].
      eapply IH, Hr'.
Qed.

(** The state in which the loop ends on a rejection is one from which the
    key has just been deleted. *)
Lemma loop_clean fuel : forall attempt lastError s r,
  (attempt <= count retryConfig)%Z ->
  (forall c st res st',
      _requestKey c = Some configKey -> send c st = (Ok res, st') ->
      JsMap.get (_abortControllers st') configKey = None) ->
  retry_loop Env listeners send sleep this retryConfig requestConfig configKey
    fuel attempt lastError s = Some r ->
  JsMap.get (_abortControllers (final r)) configKey = None.
Proof.
  induction fuel as [|fuel IH]; intros attempt lastError s r Hle Hok; [discriminate|].
  cbn [retry_loop].
  destruct (attempt <=? count retryConfig)%Z eqn:Hleb; [|apply Z.leb_gt in Hleb; lia].
  match goal with
  | |- context [_setupAbortController Env listeners this requestConfig (Some configKey) ?st] =>
      pose proof (setup_attempt_of st) as Hcfg;
      destruct (_setupAbortController Env listeners this requestConfig (Some configKey) st)
        as [finalConfig s2]
  end.
  cbn [fst] in Hcfg. destruct Hcfg as (_ & _ & _ & _ & _ & Hkey & _).
  destruct (send finalConfig s2) as [[result|error] s3] eqn:Hsend.
  - intros [= <-]. cbn [final]. eapply Hok; eassumption.
  - destruct (attempt =? count retryConfig)%Z eqn:Hlast; cbn [orb].
    + intros [= <-]. cbn. rewrite get_delete, RequestKey_eqb_refl. reflexivity.
    + destruct (negb (condition retryConfig error) || isCancel error).
      * intros [= <-]. cbn. rewrite get_delete, RequestKey_eqb_refl. reflexivity.
      * apply Z.eqb_neq in Hlast.
        match goal with
        | |- context [retry_loop _ _ _ _ _ _ _ _ fuel ?a ?e ?st] =>
            destruct (retry_loop _ _ _ _ _ _ _ _ fuel a e st) as [r'|] eqn:Hr'; [|discriminate]
        end.
        cbn [and_then]. intros [= <-]. cbn [final].
        eapply IH; [|exact Hok|exact Hr']. lia.
Qed.

Lemma loop_rejected_clean fuel : forall attempt lastError s r e,
  (attempt <= count retryConfig)%Z ->
  retry_loop Env listeners send sleep this retryConfig requestConfig configKey
    fuel attempt lastError s = Some r ->
  settled r = Rejected e ->
  JsMap.get (_abortControllers (final r)) configKey = None.
Proof.
  induction fuel as [|fuel IH]; intros attempt lastError s r e Hle; [discriminate|].
  cbn [retry_loop].
  destruct (attempt <=? count retryConfig)%Z eqn:Hleb; [|apply Z.leb_gt in Hleb; lia].
  destruct (_setupAbortController _ _ _ _ _ _) as [finalConfig s2].
  destruct (send finalConfig s2) as [[result|error] s3].
  - intros [= <-]. cbn. discriminate.
  - destruct (attempt =? count retryConfig)%Z eqn:Hlast; cbn [orb].
    + intros [= <-] _. cbn. rewrite get_delete, RequestKey_eqb_refl. reflexivity.
    + destruct (negb (condition retryConfig error) || isCancel error).
      * intros [= <-] _. cbn. rewrite get_delete, RequestKey_eqb_refl. reflexivity.
      * apply Z.eqb_neq in Hlast.
        match goal with
        | |- context [retry_loop _ _ _ _ _ _ _ _ fuel ?a ?e ?st] =>
            destruct (retry_loop _ _ _ _ _ _ _ _ fuel a e st) as [r'|] eqn:Hr'; [|discriminate]
        end.
        cbn [and_then]. intros [= <-]. cbn [final settled]. intros Hrej.
        eapply IH; [|exact Hr'|exact Hrej]. lia.
Qed.

(** The timers do not matter when the delay is not positive, nor when no
    attempt can follow. *)
Lemma loop_ignores_sleep (sleep' : Z -> State Env -> State Env) fuel :
  forall attempt lastError s,
    (delay retryConfig <= 0 \/ count retryConfig <= attempt)%Z ->
    retry_loop Env listeners send sleep this retryConfig requestConfig configKey
      fuel attempt lastError s =
    retry_loop Env listeners send sleep' this retryConfig requestConfig configKey
      fuel attempt lastError s.
Proof.
  induction fuel as [|fuel IH]; intros attempt lastError s Hwhy; [reflexivity|].
  cbn [retry_loop].
  destruct (attempt <=? count retryConfig)%Z eqn:Hleb; [|reflexivity].
  apply Z.leb_le in Hleb.
  destruct (_setupAbortController _ _ _ _ _ _) as [finalConfig s2].
  destruct (send finalConfig s2) as [[result|error] s3]; [reflexivity|].
  destruct (attempt =? count retryConfig)%Z eqn:Hlast; cbn [orb]; [reflexivity|].
  apply Z.eqb_neq in Hlast.
  destruct (negb (condition retryConfig error) || isCancel error); [reflexivity|].
  destruct Hwhy as [Hdelay|Hcount]; [|lia].
  assert (Hz : (0 <? delay retryConfig)%Z = false) by (apply Z.ltb_ge; exact Hdelay).
  rewrite Hz. f_equal. apply IH. left. exact Hdelay.
Qed.

End RetryLoopMore.

Lemma generated_key_nonempty ser config :
  (_generateRequestKey ser config =? "")%string = false.
Proof.
  unfold _generateRequestKey.
  destruct (Js.toUpperCase (or_default (method config) "GET")); reflexivity.
Qed.

Lemma call_key_truthy {Env : Type} (this : AxiosWrapperPro Env) method_ url_ config :
  requestKey config <> Some (KString "") ->
  key_truthy (Some (call_key this method_ url_ config)) = true.
Proof.
  unfold call_key. intros Hne.
  destruct (requestKey config) as [[k|id]|]; cbn.
  - destruct (String.eqb_spec k ""); [subst; congruence|reflexivity].
  - reflexivity.
  - rewrite generated_key_nonempty. reflexivity.
Qed.

(** X3: every transport invocation of a call of [request] is sent the
    request configuration of the call, unchanged from one attempt to the
    next, with a signal and with one and the same key: the caller's
    [requestKey], or else the key generated once before the loop. *)
Theorem request_sends_one_key :
  forall (Env : Type) listeners send sleep (this : AxiosWrapperPro Env)
         method_ url_ config s,
    exists r,
      request Env listeners send sleep this method_ url_ config s = Some r /\
      Forall (fun c => attempt_of (build_requestConfig method_ url_ (restConfig config))
                         (call_key this method_ url_ config) (fst c))
             (sent r).
Proof.
  intros Env listeners send sleep this method_ url_ config s.
  destruct (request_returns Env listeners send sleep this method_ url_ config s) as [r Hr].
  exists r. split; [exact Hr|].
  unfold request in Hr. eapply loop_sends_attempts, Hr.
Qed.

(** X4: when the count is a non-negative integer and the promise of
    [request] rejects, the registry holds no entry under the key of the
    call, whatever the transport, the listeners and the hooks did. *)
Theorem rejected_call_leaves_no_entry :
  forall (Env : Type) listeners send sleep (this : AxiosWrapperPro Env)
         method_ url_ config s,
    (0 <= count (merged_retry Env this config))%Z ->
    exists r,
      request Env listeners send sleep this method_ url_ config s = Some r /\
      forall e, settled r = Rejected e ->
                JsMap.get (_abortControllers (final r)) (call_key this method_ url_ config)
                  = None.
Proof.
  intros Env listeners send sleep this method_ url_ config s Hcount.
  destruct (request_returns Env listeners send sleep this method_ url_ config s) as [r Hr].
  exists r. split; [exact Hr|]. intros e Hrej.
  unfold request in Hr. eapply loop_rejected_clean; [exact Hcount|exact Hr|exact Hrej].
Qed.

Lemma rejected_call_leaves_no_entry_witness :
  exists r,
    run_from (fun _ => Err (server_error 503))
      (call_with (Some (KString "k")) (mkPartialRetry (Some 1%Z) (Some 0%Z) None))
      one_pending = Some r /\
    settled r = Rejected (Some (server_error 503)) /\
    JsMap.get (_abortControllers (final r)) (KString "k") = None.
Proof.
  destruct (rejected_call_leaves_no_entry nat quiet (scripted (fun _ => Err (server_error 503)))
              immediate default_client "GET" "/users"
              (call_with (Some (KString "k")) (mkPartialRetry (Some 1%Z) (Some 0%Z) None))
              one_pending) as (r & Hr & Hclean).
  - vm_compute. discriminate.
  - exists r. split; [exact Hr|].
    assert (Hrej : settled r = Rejected (Some (server_error 503))).
    { vm_compute in Hr. injection Hr as <-. reflexivity. }
    split; [exact Hrej|]. exact (Hclean _ Hrej).
Defined.

Lemma instance_request_cleans {Env : Type} (this : AxiosWrapperPro Env) adapter key :
  no_hooks this -> echoes_key adapter -> key_truthy (Some key) = true ->
  forall c st res st',
    _requestKey c = Some key ->
    instance_request this adapter c st = (Ok res, st') ->
    JsMap.get (_abortControllers st') key = None.
Proof.
  intros Hno Hecho Htruthy c st res st' Hkey.
  unfold no_hooks in Hno.
  unfold instance_request, installed_response, installed_responseError, _getInterceptors.
  cbn zeta. rewrite !Hno. cbn.
  destruct (adapter c st) as [[res0|error] s2] eqn:Hadapter.
  - rewrite (Hecho _ _ _ _ Hadapter), Hkey. unfold cleanup. rewrite Htruthy.
    intros [= <- <-]. cbn. rewrite get_delete, RequestKey_eqb_refl. reflexivity.
  - discriminate.
Qed.

(** X5: on an instance without hooks of its own, over an adapter whose
    responses carry the configuration key of their request, a call of
    [request] whose [requestKey] is not the empty string, with a count that
    is a non-negative integer, leaves no registry entry under its key,
    whether it resolves or rejects; a call without [requestKey] is such a
    call, its generated key being never empty. *)
Theorem settled_call_leaves_no_entry :
  forall (Env : Type) listeners adapter sleep (this : AxiosWrapperPro Env)
         method_ url_ config s,
    no_hooks this ->
    echoes_key adapter ->
    (0 <= count (merged_retry Env this config))%Z ->
    requestKey config <> Some (KString "") ->
    exists r,
      request Env listeners (instance_request this adapter) sleep this method_ url_ config s
        = Some r /\
      key_truthy (Some (call_key this method_ url_ config)) = true /\
      JsMap.get (_abortControllers (final r)) (call_key this method_ url_ config) = None.
Proof.
  intros Env listeners adapter sleep this method_ url_ config s Hno Hecho Hcount Hkey.
  destruct (request_returns Env listeners (instance_request this adapter) sleep this
              method_ url_ config s) as [r Hr].
  pose proof (call_key_truthy this method_ url_ config Hkey) as Htruthy.
  exists r. split; [exact Hr|]. split; [exact Htruthy|].
  unfold request in Hr. eapply loop_clean; [exact Hcount| |exact Hr].
  apply instance_request_cleans; assumption.
Qed.

Lemma settled_call_leaves_no_entry_witness :
  exists r,
    request nat quiet (instance_request default_client ok_adapter) immediate default_client
      "GET" "/users" (once (KString "k")) one_pending = Some r /\
    JsMap.get (_abortControllers (final r)) (KString "k") = None.
Proof.
  destruct (settled_call_leaves_no_entry nat quiet ok_adapter immediate default_client
              "GET" "/users" (once (KString "k")) one_pending) as (r & Hr & _ & Hclean).
  - reflexivity.
  - intros config s res s'. unfold ok_adapter. intros [= <- _]. reflexivity.
  - vm_compute. discriminate.
  - discriminate.
  - exists r. split; [exact Hr|exact Hclean].
Defined.



(** X7: [request] does not wait when the delay of the policy is not
    positive, nor when the count allows no second attempt: what the timers
    would do has no part in the result. *)
Theorem timers_unused_without_delay :
  forall (Env : Type) listeners send sleep sleep' (this : AxiosWrapperPro Env)
         method_ url_ config s,
    (delay (merged_retry Env this config) <= 0 \/
     count (merged_retry Env this config) <= 0)%Z ->
    request Env listeners send sleep this method_ url_ config s =
    request Env listeners send sleep' this method_ url_ config s.
Proof.
  intros Env listeners send sleep sleep' this method_ url_ config s Hwhy.
  unfold request. apply loop_ignores_sleep. exact Hwhy.
Qed.

Lemma timers_unused_without_delay_witness :
  request nat quiet (scripted three_failures) ticking default_client "GET" "/users"
    two_retries fresh_state =
  run_scripted three_failures two_retries.
Proof.
  apply (timers_unused_without_delay nat quiet (scripted three_failures) ticking immediate
           default_client "GET" "/users" two_retries fresh_state).
  left. vm_compute. discriminate.
Defined.

(** X8: an instance built without a [retry] option, called without a
    [retry] override, makes exactly one transport invocation, the first
    attempt, and settles on what [send] answered: the built-in count is 0.
    After a failure only the entry of the key is deleted. *)
Theorem default_policy_makes_one_attempt :
  forall (Env : Type) listeners send sleep serializer hooks (e : Env)
         key rest method_ url_ s,
    request Env listeners send sleep
      (fst (constructor (mkOptions serializer hooks None) e)) method_ url_
      (mkRequestConfig key None rest) s =
    Some
      {| settled :=
           settles
             (snd (fst (first_attempt listeners send
                          (fst (constructor (mkOptions serializer hooks None) e))
                          method_ url_ (mkRequestConfig key None rest) s)));
         sent :=
           [fst (first_attempt listeners send
                   (fst (constructor (mkOptions serializer hooks None) e))
                   method_ url_ (mkRequestConfig key None rest) s)];
         final :=
           match snd (fst (first_attempt listeners send
                             (fst (constructor (mkOptions serializer hooks None) e))
                             method_ url_ (mkRequestConfig key None rest) s)) with
           | Ok _ =>
               snd (first_attempt listeners send
                      (fst (constructor (mkOptions serializer hooks None) e))
                      method_ url_ (mkRequestConfig key None rest) s)
           | Err _ =>
               registry_delete Env
                 (call_key (fst (constructor (mkOptions serializer hooks None) e))
                    method_ url_ (mkRequestConfig key None rest))
                 (snd (first_attempt listeners send
                         (fst (constructor (mkOptions serializer hooks None) e))
                         method_ url_ (mkRequestConfig key None rest) s))
           end |}.
Proof.
  intros Env listeners send sleep serializer hooks e key rest method_ url_ s.
  unfold request, first_attempt, call_key, loop_fuel.
  cbn [retry_loop merged_retry constructor fst _retryConfig retry or_empty spread_retry
       empty_retry p_count p_delay p_condition count DEFAULT_RETRY_CONFIG
       requestKey restConfig Z.leb Z.ltb Z.eqb Z.compare orb].
  destruct (_setupAbortController _ _ _ _ _ _) as [finalConfig s1].
  destruct (send finalConfig s1) as [[result|error] s2]; reflexivity.
Qed.

Lemma default_policy_makes_one_attempt_witness :
  exists c s',
    run_scripted three_failures bare_call =
      Some {| settled := Rejected (Some (server_error 500));
              sent := [(c, Err (server_error 500))]; final := s' |} /\
    signal c = Some O /\
    env s' = 1%nat /\
    JsMap.size (_abortControllers s') = O.
Proof.
  unfold run_scripted, default_client, bare_call.
  rewrite (default_policy_makes_one_attempt nat quiet (scripted three_failures) immediate
             None None O None plain_config "GET" "/users" fresh_state).
  eexists _, _. split; [vm_compute; reflexivity|]. repeat split.
Defined.

(** ** [cancelRequest] *)

Lemma abort_blind_others (Env : Type) listeners c reason (s : State Env) c' :
  registry_blind Env listeners -> c' <> c ->
  nth_error (signals (abort Env listeners c reason s)) c' = nth_error (signals s) c'.
Proof.
  intros Hblind Hne.
  destruct (abort_blind Env listeners Hblind c reason s) as (_ & _ & Hpend & Hdone & Hlen).
  destruct (nth_error (signals s) c') as [[r|]|] eqn:Hc'.
  - apply Hdone, Hc'.
  - rewrite (Hpend _ Hc'). destruct (Nat.eqb_spec c c'); [congruence|reflexivity].
  - apply nth_error_None. rewrite Hlen. apply nth_error_None, Hc'.
Qed.

(** X9: [cancelRequest] on a key that is not registered returns [false] and
    changes nothing. On a registered key, with listeners that leave the
    registry alone, it returns [true], calls [abort] once, on the handle of
    that key and with the reason given or else the default one, removes the
    entry and touches no other key and no other controller; cancelling the
    same key again returns [false]. *)
Theorem cancel_request_by_key :
  forall (Env : Type) listeners key reason reason' (s : State Env),
    registry_blind Env listeners ->
    (JsMap.get (_abortControllers s) key = None ->
     cancelRequest Env listeners key reason s = (false, s)) /\
    (forall c,
        JsMap.get (_abortControllers s) key = Some c ->
        exists s',
          cancelRequest Env listeners key reason s = (true, s') /\
          JsMap.get (_abortControllers s') key = None /\
          (forall k, k <> key ->
                     JsMap.get (_abortControllers s') k = JsMap.get (_abortControllers s) k) /\
          abort_calls s' = (abort_calls s ++ [c])%list /\
          (forall c', c' <> c -> nth_error (signals s') c' = nth_error (signals s) c') /\
          (nth_error (signals s) c = Some None ->
           nth_error (signals s') c = Some (Some (or_default reason DEFAULT_REASON))) /\
          cancelRequest Env listeners key reason' s' = (false, s')).
Proof.
  intros Env listeners key reason reason' s Hblind. split.
  - intros Hget. unfold cancelRequest. rewrite Hget. reflexivity.
  - intros c Hget. unfold cancelRequest at 1. rewrite Hget.
    eexists. split; [reflexivity|].
    destruct (abort_blind Env listeners Hblind c (or_default reason DEFAULT_REASON) s)
      as (Hreg & Hcalls & Hpend & _ & _).
    assert (Hgone : JsMap.get (_abortControllers
                       (registry_delete Env key
                          (abort Env listeners c (or_default reason DEFAULT_REASON) s))) key
                    = None).
    { cbn. rewrite get_delete, RequestKey_eqb_refl. reflexivity. }
    split; [exact Hgone|]. split.
    { intros k Hk. cbn. rewrite get_delete, Hreg.
      destruct (RequestKey_eqb_spec key k); [congruence|reflexivity]. }
    split; [exact Hcalls|]. split.
    { intros c' Hc'. cbn. apply abort_blind_others; assumption. }
    split.
    { intros Hpending. cbn. rewrite (Hpend _ Hpending), Nat.eqb_refl. reflexivity. }
    unfold cancelRequest. rewrite Hgone. reflexivity.
Qed.

Lemma cancel_request_by_key_witness :
  cancelRequest nat quiet (KString "other") None one_pending = (false, one_pending) /\
  exists s',
    cancelRequest nat quiet (KString "k") (Some "stop") one_pending = (true, s') /\
    JsMap.get (_abortControllers s') (KString "k") = None /\
    abort_calls s' = [O] /\
    nth_error (signals s') O = Some (Some "stop") /\
    cancelRequest nat quiet (KString "k") None s' = (false, s').
Proof.
  destruct (cancel_request_by_key nat quiet (KString "other") None None one_pending
              (quiet_is_blind nat)) as [Hmissing _].
  destruct (cancel_request_by_key nat quiet (KString "k") (Some "stop") None one_pending
              (quiet_is_blind nat)) as [_ Hpresent].
  split; [apply Hmissing; reflexivity|].
  destruct (Hpresent O eq_refl) as (s' & Hrun & Hgone & _ & Hcalls & _ & Hflag & Hagain).
  exists s'. repeat split; try assumption. apply Hflag. reflexivity.
Defined.

(** ** More on the key generator *)

Lemma upper_char_idempotent c : Js.upper_char (Js.upper_char c) = Js.upper_char c.
Proof. destruct c as [[] [] [] [] [] [] [] []]; reflexivity. Qed.

Lemma toUpperCase_idempotent s : Js.toUpperCase (Js.toUpperCase s) = Js.toUpperCase s.
Proof.
  induction s as [|c s IH]; cbn; [reflexivity|].
  rewrite upper_char_idempotent, IH. reflexivity.
Qed.

Lemma toUpperCase_empty s : (Js.toUpperCase s =? "")%string = (s =? "")%string.
Proof. destruct s; reflexivity. Qed.

Lemma key_method_case m1 m2 :
  Js.toUpperCase m1 = Js.toUpperCase m2 ->
  Js.toUpperCase (or_default (Some m1) "GET") = Js.toUpperCase (or_default (Some m2) "GET").
Proof.
  intros E. cbn [or_default].
  rewrite <- (toUpperCase_empty m1), <- (toUpperCase_empty m2), E.
  destruct (Js.toUpperCase m2 =? "")%string; [reflexivity|exact E].
Qed.

(** X10: the key is computed under the upper-cased method, [GET] when the
    method is absent or empty, so methods that differ in letter case only
    give the same key; and for a method other than POST, PUT, PATCH and
    DELETE the body has no part in the key. *)
Theorem key_method_normalised :
  forall serializer config,
    (forall m1 m2,
        Js.toUpperCase m1 = Js.toUpperCase m2 ->
        _generateRequestKey serializer (with_method config (Some m1)) =
        _generateRequestKey serializer (with_method config (Some m2))) /\
    _generateRequestKey serializer (with_method config None) =
      _generateRequestKey serializer (with_method config (Some "get")) /\
    _generateRequestKey serializer (with_method config (Some "")) =
      _generateRequestKey serializer (with_method config (Some "GET")) /\
    (includes body_methods (key_method config) = false ->
     forall d d',
       _generateRequestKey serializer (with_body config d) =
       _generateRequestKey serializer (with_body config d')).
Proof.
  intros serializer config. split; [|split; [reflexivity|split; [reflexivity|]]].
  - intros m1 m2 E. unfold _generateRequestKey. cbn [method with_method].
    rewrite (key_method_case m1 m2 E). reflexivity.
  - intros Hnot d d'. unfold _generateRequestKey, key_method in *.
    cbn [method with_body]. rewrite Hnot. reflexivity.
Qed.

Lemma key_method_normalised_witness :
  _generateRequestKey None (with_method (get_users []) (Some "Post")) =
  _generateRequestKey None (with_method (get_users []) (Some "pOST")) /\
  _generateRequestKey None (with_body (get_users []) (JObj [("a", JNum 1)])) =
  _generateRequestKey None (with_body (get_users []) JNull).
Proof.
  destruct (key_method_normalised None (get_users [])) as (Hcase & _ & _ & Hbody).
  split; [apply Hcase; reflexivity|apply Hbody; reflexivity].
Defined.

(** X11: the serializer of the call, when it is a function, is the one
    applied to the query parameters, whatever the serializer of the
    instance, and the serializer of the instance is applied when the call
    has none: the third part of the key is the chosen serializer applied to
    the copy of the parameters, which is the parameters themselves for an
    object without [_t].  A custom serializer is applied to the query
    parameters only, so with falsy parameters neither serializer has a part
    in the key, the body going through the stable serializer. *)
Theorem key_serializer_precedence :
  forall config,
    (forall f instance instance',
        _generateRequestKey instance (with_serializer config (Some f)) =
        _generateRequestKey instance' (with_serializer config (Some f))) /\
    (forall instance,
        _generateRequestKey instance (with_serializer config None) =
        _generateRequestKey None (with_serializer config instance)) /\
    (Js.truthy (params config) = false ->
     forall percall percall' instance instance',
       _generateRequestKey instance (with_serializer config percall) =
       _generateRequestKey instance' (with_serializer config percall')) /\
    (exists dataStr,
       (forall percall instance copy,
           stripped_params config = Some copy ->
           _generateRequestKey instance (with_serializer config percall) =
             key_method config ++ "|" ++ or_default (url config) "" ++ "|"
             ++ chosen_serializer percall instance (JObj copy) ++ "|" ++ dataStr) /\
       (forall percall instance query,
           ~ In "_t" (Js.keys query) ->
           _generateRequestKey instance
             (with_serializer (with_params config (JObj query)) percall) =
             key_method config ++ "|" ++ or_default (url config) "" ++ "|"
             ++ chosen_serializer percall instance (JObj query) ++ "|" ++ dataStr)).
Proof.
  intros config. split; [|split; [|split]].
  - intros f instance instance'. reflexivity.
  - intros [g|]; reflexivity.
  - intros Hfalsy percall percall' instance instance'.
    unfold _generateRequestKey, stripped_params. cbn [params with_serializer].
    rewrite Hfalsy. reflexivity.
  - eexists. split.
    + intros percall instance copy Hcopy.
      unfold _generateRequestKey, key_method.
      replace (stripped_params (with_serializer config percall)) with (Some copy)
        by (rewrite <- Hcopy; reflexivity).
      cbn [method url data paramsSerializer with_serializer].
      destruct percall as [f|], instance as [g|]; reflexivity.
    + intros percall instance query Hquery.
      unfold _generateRequestKey, key_method, stripped_params.
      cbn [method url data params paramsSerializer with_serializer with_params
           Js.truthy Js.spread].
      rewrite (get_missing _ _ Hquery). cbn [Js.truthy].
      destruct percall as [f|], instance as [g|]; reflexivity.
Qed.

Lemma key_serializer_precedence_witness :
  _generateRequestKey (Some upper_query)
    (with_serializer (with_body (with_method plain_config (Some "post")) (JObj [("a", JNum 1)]))
       None) =
  _generateRequestKey None
    (with_serializer (with_body (with_method plain_config (Some "post")) (JObj [("a", JNum 1)]))
       None) /\
  (exists dataStr,
     _generateRequestKey (Some lower_query)
       (with_serializer (with_params (get_users []) (JObj [("page", JNum 1)]))
          (Some upper_query)) = "GET|/users|Q|" ++ dataStr /\
     _generateRequestKey (Some lower_query)
       (with_serializer (with_params (get_users []) (JObj [("page", JNum 1)])) None) =
       "GET|/users|q|" ++ dataStr /\
     _generateRequestKey None
       (with_serializer (with_params (get_users []) (JObj [("page", JNum 1)])) None) =
       "GET|/users|" ++ _stableStringify (JObj [("page", JNum 1)]) ++ "|" ++ dataStr) /\
  _generateRequestKey (Some lower_query)
    (with_serializer (get_users [("page", JNum 1); ("_t", JNum 7)]) (Some upper_query)) =
    "GET|/users|Q|".
Proof.
  destruct (key_serializer_precedence
              (with_body (with_method plain_config (Some "post")) (JObj [("a", JNum 1)])))
    as (_ & _ & Hnone & _).
  destruct (key_serializer_precedence (get_users [])) as (_ & _ & _ & dataStr & _ & Happlied).
  split; [apply Hnone; reflexivity|].
  split; [|reflexivity].
  exists dataStr.
  split; [|split].
  - apply (Happlied (Some upper_query) (Some lower_query) [("page", JNum 1)]).
    cbn. intuition discriminate.
  - apply (Happlied None (Some lower_query) [("page", JNum 1)]).
    cbn. intuition discriminate.
  - apply (Happlied None None [("page", JNum 1)]).
    cbn. intuition discriminate.
Defined.

Lemma truthy_serializes_nonempty d :
  Js.truthy d = true -> is_string d = false ->
  (_stableStringify d =? "")%string = false.
Proof.
  destruct d as [| |[|]|n| | |[|]|s|l|o]; cbn; try discriminate; intros Ht _; try reflexivity.
  destruct (String.eqb_spec (Js.of_Z n) "") as [E|]; [|reflexivity].
  pose proof (of_Z_parses n) as H. rewrite E in H. discriminate.
Qed.

(** X12: query parameters and a body that are falsy ([null], [0], the empty
    string, [false]) count as absent in the key; and a truthy body that is
    not a string gives the same key as the string body that spells its
    stable serialization, a string body being written into the key as it
    is. *)
Theorem key_of_falsy_and_raw_bodies :
  forall serializer config,
    (forall v, Js.truthy v = false ->
               _generateRequestKey serializer (with_params config v) =
               _generateRequestKey serializer (with_params config JUndefined)) /\
    (forall v, Js.truthy v = false ->
               _generateRequestKey serializer (with_body config v) =
               _generateRequestKey serializer (with_body config JUndefined)) /\
    (forall d, Js.truthy d = true -> is_string d = false ->
               _generateRequestKey serializer (with_body config (JStr (_stableStringify d))) =
               _generateRequestKey serializer (with_body config d)).
Proof.
  intros serializer config. split; [|split].
  - intros v Hv. unfold _generateRequestKey, stripped_params. cbn [params with_params].
    rewrite Hv. reflexivity.
  - intros v Hv. unfold _generateRequestKey. cbn [data with_body method].
    rewrite Hv. rewrite !andb_false_r. reflexivity.
  - intros d Ht Hs. unfold _generateRequestKey. cbn [data with_body method Js.truthy].
    rewrite Ht, (truthy_serializes_nonempty d Ht Hs). cbn [negb].
    destruct d; try discriminate; reflexivity.
Qed.

Lemma key_of_falsy_and_raw_bodies_witness :
  _generateRequestKey None (with_params (get_users []) JNull) =
  _generateRequestKey None (with_params (get_users []) JUndefined) /\
  _generateRequestKey None
    (with_body (with_method plain_config (Some "POST"))
       (JStr (_stableStringify (JObj [("a", JNum 1)])))) =
  _generateRequestKey None
    (with_body (with_method plain_config (Some "POST")) (JObj [("a", JNum 1)])).
Proof.
  destruct (key_of_falsy_and_raw_bodies None (get_users [])) as (Hparams & _ & _).
  destruct (key_of_falsy_and_raw_bodies None (with_method plain_config (Some "POST")))
    as (_ & _ & Hraw).
  split; [apply Hparams; reflexivity|apply Hraw; reflexivity].
Defined.

(** ** Replacing the hooks *)

Lemma live_app {H : Type} (m : Manager.t H) h :
  Manager.live (m ++ [Some h])%list = (Manager.live m ++ [h])%list.
Proof.
  induction m as [|[h0|] m IH]; cbn; [reflexivity| |exact IH].
  f_equal. exact IH.
Qed.

Lemma live_eject_length {H : Type} (m : Manager.t H) : forall i h,
  nth_error m i = Some (Some h) ->
  S (List.length (Manager.live (list_set m i None))) = List.length (Manager.live m).
Proof.
  induction m as [|[h0|] m IH]; intros [|i] h; cbn; try discriminate.
  - intros _. reflexivity.
  - intros Hnth. f_equal. eapply IH, Hnth.
  - intros Hnth. eapply IH, Hnth.
Qed.

Lemma eject_the_only_one {H : Type} (m : Manager.t H) i h :
  nth_error m i = Some (Some h) -> Manager.live m = [h] ->
  Manager.live (Manager.eject m i) = [].
Proof.
  intros Hnth Hlive. unfold Manager.eject. rewrite Hnth.
  pose proof (live_eject_length m i h Hnth) as Hlen. rewrite Hlive in Hlen.
  destruct (Manager.live (list_set m i None)); [reflexivity|discriminate].
Qed.

Lemma nth_error_pushed {A : Type} (l : list A) x : nth_error (l ++ [x])%list (List.length l) = Some x.
Proof.
  rewrite nth_error_app2 by lia. rewrite Nat.sub_diag. reflexivity.
Qed.

Lemma wire_installed_once {Env : Type} (this : AxiosWrapperPro Env) : installed_once (wire this).
Proof.
  unfold installed_once, wire. cbn. repeat split; eauto.
Qed.

Lemma setRequest_installed_once {Env : Type} f g (w : Wired Env) :
  installed_once w -> installed_once (setRequestInterceptor f g w).
Proof.
  intros (Hreq & Hres & (i & Hi & Hnth) & (j & Hj & Hnthj)).
  unfold installed_once, setRequestInterceptor, _initRequestInterceptors, Manager.use.
  rewrite Hi. cbn [self request_handlers response_handlers _requestInterceptorId
                     _responseInterceptorId].
  rewrite live_app, (eject_the_only_one _ _ _ Hnth Hreq).
  split; [reflexivity|]. split; [exact Hres|]. split.
  - eexists. split; [reflexivity|]. apply nth_error_pushed.
  - exists j. split; [exact Hj|exact Hnthj].
Qed.

Lemma setResponse_installed_once {Env : Type} f g (w : Wired Env) :
  installed_once w -> installed_once (setResponseInterceptor f g w).
Proof.
  intros (Hreq & Hres & (i & Hi & Hnth) & (j & Hj & Hnthj)).
  unfold installed_once, setResponseInterceptor, _initResponseInterceptors, Manager.use.
  rewrite Hj. cbn [self request_handlers response_handlers _requestInterceptorId
                     _responseInterceptorId].
  rewrite live_app, (eject_the_only_one _ _ _ Hnthj Hres).
  split; [exact Hreq|]. split; [reflexivity|]. split.
  - exists i. split; [exact Hi|exact Hnth].
  - eexists. split; [reflexivity|]. apply nth_error_pushed.
Qed.

Lemma setters_installed_once {Env : Type} (calls : list (SetterCall Env)) : forall w,
  installed_once w -> installed_once (fold_left apply_setter calls w).
Proof.
  induction calls as [|[f g|f g] calls IH]; intros w Hw; cbn; [exact Hw| |].
  - apply IH, setRequest_installed_once, Hw.
  - apply IH, setResponse_installed_once, Hw.
Qed.

(** X13: after the constructor and any sequence of calls of
    [setRequestInterceptor] and [setResponseInterceptor], each manager of
    the axios instance holds exactly one live handler, the one built from
    the current hooks, so no hook runs twice; a setter replaces its own two
    hooks by its arguments and leaves the other two, the retry
    configuration and the serializer as they were. *)
Theorem hooks_installed_once :
  forall (Env : Type) (this : AxiosWrapperPro Env) (calls : list (SetterCall Env)),
    installed_once (fold_left apply_setter calls (wire this)) /\
    self (wire this) = this /\
    (forall f g,
        self (setResponseInterceptor f g (fold_left apply_setter calls (wire this))) =
        {| _retryConfig := _retryConfig (self (fold_left apply_setter calls (wire this)));
           _paramsSerializer :=
             _paramsSerializer (self (fold_left apply_setter calls (wire this)));
           _interceptorConfig :=
             Interceptor.mkPartial
               (Interceptor.p_request
                  (_interceptorConfig (self (fold_left apply_setter calls (wire this)))))
               (Interceptor.p_requestError
                  (_interceptorConfig (self (fold_left apply_setter calls (wire this)))))
               f g |}) /\
    (forall f g,
        self (setRequestInterceptor f g (fold_left apply_setter calls (wire this))) =
        {| _retryConfig := _retryConfig (self (fold_left apply_setter calls (wire this)));
           _paramsSerializer :=
             _paramsSerializer (self (fold_left apply_setter calls (wire this)));
           _interceptorConfig :=
             Interceptor.mkPartial f g
               (Interceptor.p_response
                  (_interceptorConfig (self (fold_left apply_setter calls (wire this)))))
               (Interceptor.p_responseError
                  (_interceptorConfig (self (fold_left apply_setter calls (wire this))))) |}).
Proof.
  intros Env this calls.
  split; [apply setters_installed_once, wire_installed_once|].
  split; [reflexivity|]. split; intros f g; reflexivity.
Qed.

(** ** Default headers and base URL *)







(** ** The method wrappers *)

Lemma request_sends_wrapper {Env : Type} listeners send sleep (this : AxiosWrapperPro Env)
    method_ url_ body options config s :
  restConfig config =
    restConfig (Facade.with_data options body) ->
  exists r,
    request Env listeners send sleep this method_ url_ config s = Some r /\
    Forall (fun c => wrapper_sends method_ url_ body options (fst c)) (sent r).
Proof.
  intros Hrest.
  destruct (request_returns Env listeners send sleep this method_ url_ config s) as [r Hr].
  exists r. split; [exact Hr|].
  unfold request in Hr. apply loop_sends_attempts in Hr.
  eapply Forall_impl; [|exact Hr].
  intros [c o] (Hm & Hu & Hp & Hd & _). cbn [fst] in *.
  rewrite Hrest in Hm, Hu, Hp, Hd. unfold wrapper_sends.
  rewrite Hm, Hu, Hp, Hd. cbn.
  destruct (method (restConfig options)), (url (restConfig options)); auto.
Qed.

(** X15: every transport invocation made through a method wrapper carries
    the method of the wrapper and the URL given, unless the options have a
    [method] or [url] property of their own, which then wins. [post], [put]
    and [patch] send the body given, an empty object when it is
    [undefined], whatever [data] the options hold; [get] and [delete] send
    the [data] of the options. *)
Theorem wrappers_send_their_method :
  forall (Env : Type) listeners send sleep (this : AxiosWrapperPro Env)
         url_ body options s,
    (exists r, Facade.get Env listeners send sleep this url_ options s = Some r /\
               Forall (fun c => wrapper_sends "GET" url_ (data (restConfig options)) options
                                  (fst c)) (sent r)) /\
    (exists r, Facade.delete Env listeners send sleep this url_ options s = Some r /\
               Forall (fun c => wrapper_sends "DELETE" url_ (data (restConfig options)) options
                                  (fst c)) (sent r)) /\
    (exists r, Facade.post Env listeners send sleep this url_ body options s = Some r /\
               Forall (fun c => wrapper_sends "POST" url_ (Facade.default_data body) options
                                  (fst c)) (sent r)) /\
    (exists r, Facade.put Env listeners send sleep this url_ body options s = Some r /\
               Forall (fun c => wrapper_sends "PUT" url_ (Facade.default_data body) options
                                  (fst c)) (sent r)) /\
    (exists r, Facade.patch Env listeners send sleep this url_ body options s = Some r /\
               Forall (fun c => wrapper_sends "PATCH" url_ (Facade.default_data body) options
                                  (fst c)) (sent r)) /\
    Facade.default_data JUndefined = JObj [] /\
    Facade.default_data JNull = JNull.
Proof.
  intros Env listeners send sleep this url_ body options s.
  repeat split.
  - apply request_sends_wrapper. destruct options as [k r [m u p d ps sg rk]]. reflexivity.
  - apply request_sends_wrapper. destruct options as [k r [m u p d ps sg rk]]. reflexivity.
  - apply request_sends_wrapper. reflexivity.
  - apply request_sends_wrapper. reflexivity.
  - apply request_sends_wrapper. reflexivity.
Qed.

(** ** Calls under different keys *)

Section Isolation.

Variable Env : Type.
Variable listeners : Ctrl -> State Env -> State Env.
Variable send : AxiosRequestConfig -> State Env -> Outcome * State Env.
Variable sleep : Z -> State Env -> State Env.
Variable this : AxiosWrapperPro Env.
Variable retryConfig : RetryConfig.
Variable requestConfig : AxiosRequestConfig.
Variable key : RequestKey.
Variable s0 : State Env.

Hypothesis Hblind : registry_blind Env listeners.
Hypothesis Hsend : forall c, keeps_others key (fun s => snd (send c s)).
Hypothesis Hsleep : forall ms, keeps_others key (sleep ms).

Lemma undisturbed_refl : undisturbed key s0 s0.
Proof. repeat split; auto. Qed.

Lemma undisturbed_delete s' :
  undisturbed key s0 s' -> undisturbed key s0 (registry_delete Env key s').
Proof.
  intros (Hlen & Hsig & Hreg & Hkey). repeat split; cbn; auto.
  - intros k Hk. rewrite get_delete.
    destruct (RequestKey_eqb_spec key k); [congruence|apply Hreg, Hk].
  - intros c. rewrite get_delete, RequestKey_eqb_refl. discriminate.
Qed.

Lemma undisturbed_keeps f s' :
  keeps_others key f -> undisturbed key s0 s' -> undisturbed key s0 (f s').
Proof.
  intros Hf (Hlen & Hsig & Hreg & Hkey).
  destruct (Hf s') as (Hsame & Hothers & Hmine).
  repeat split.
  - rewrite Hsame. exact Hlen.
  - intros c Hc Hnot. rewrite Hsame. apply Hsig; assumption.
  - intros k Hk. rewrite (Hothers k Hk). apply Hreg, Hk.
  - intros c Hc. destruct Hmine as [Hnone|Hkept]; [congruence|].
    apply Hkey. congruence.
Qed.

Lemma undisturbed_setup s' :
  undisturbed key s0 s' ->
  undisturbed key s0
    (snd (_setupAbortController Env listeners this requestConfig (Some key) s')).
Proof.
  intros (Hlen & Hsig & Hreg & Hkey).
  unfold _setupAbortController.
  assert (Hs1 : let s1 := snd (cancelRequest Env listeners key None s') in
                (List.length (signals s0) <= List.length (signals s1))%nat /\
                (forall c, (c < List.length (signals s0))%nat ->
                           JsMap.get (_abortControllers s0) key <> Some c ->
                           nth_error (signals s1) c = nth_error (signals s0) c) /\
                _abortControllers s1 = JsMap.delete (_abortControllers s') key).
  { unfold cancelRequest.
    destruct (JsMap.get (_abortControllers s') key) as [c|] eqn:Hget; cbn.
    - destruct (abort_blind Env listeners Hblind c DEFAULT_REASON s')
        as (Hr & _ & _ & _ & Hl).
      rewrite Hl, Hr. split; [exact Hlen|]. split; [|reflexivity].
      intros c' Hc' Hnot. rewrite abort_blind_others; [apply Hsig; assumption|exact Hblind|].
      intros ->. destruct (Hkey _ eq_refl) as [Hold|Hnew]; [contradiction|lia].
    - split; [exact Hlen|]. split; [exact Hsig|].
      symmetry. apply delete_absent, Hget. }
  cbn zeta in Hs1. destruct Hs1 as (Hlen1 & Hsig1 & Hreg1).
  unfold new_AbortController, with_registry, undisturbed.
  cbn [snd _abortControllers signals abort_calls env].
  repeat split.
  - rewrite length_app. cbn. lia.
  - intros c Hc Hnot. rewrite nth_error_app1 by lia. apply Hsig1; assumption.
  - intros k Hk. rewrite get_set, Hreg1, get_delete.
    destruct (RequestKey_eqb_spec key k); [congruence|apply Hreg, Hk].
  - intros c. rewrite get_set, RequestKey_eqb_refl. intros [= <-]. right. exact Hlen1.
Qed.

Lemma loop_undisturbed fuel : forall attempt lastError s r,
  undisturbed key s0 s ->
  retry_loop Env listeners send sleep this retryConfig requestConfig key
    fuel attempt lastError s = Some r ->
  undisturbed key s0 (final r).
Proof.
  induction fuel as [|fuel IH]; intros attempt lastError s r Hs; [discriminate|].
  cbn [retry_loop].
  destruct (attempt <=? count retryConfig)%Z; [|intros [= <-]; exact Hs].
  assert (Hs1 : undisturbed key s0
                  (if (0 <? attempt)%Z then registry_delete Env key s else s)).
  { destruct (0 <? attempt)%Z; [apply undisturbed_delete, Hs|exact Hs]. }
  pose proof (undisturbed_setup _ Hs1) as Hs2.
  destruct (_setupAbortController Env listeners this requestConfig (Some key) _)
    as [finalConfig s2].
  cbn [snd] in Hs2.
  pose proof (undisturbed_keeps _ _ (Hsend finalConfig) Hs2) as Hs3. cbn beta in Hs3.
  destruct (send finalConfig s2) as [[result|error] s3]; cbn [snd] in Hs3.
  - intros [= <-]. exact Hs3.
  - pose proof (undisturbed_delete _ Hs3) as Hs4.
    match goal with |- context [if ?b then Some _ else _] => destruct b end.
    + intros [= <-]. exact Hs4.
    + match goal with
      | |- context [retry_loop _ _ _ _ _ _ _ _ fuel ?a ?e ?st] =>
          destruct (retry_loop _ _ _ _ _ _ _ _ fuel a e st) as [r'|] eqn:Hr'; [|discriminate]
      end.
      cbn [and_then]. intros [= <-]. cbn [final].
      eapply IH; [|exact Hr'].
      destruct (0 <? delay retryConfig)%Z; [apply undisturbed_keeps; auto|exact Hs4].
Qed.

End Isolation.

(** X16: when the listeners leave the registry alone and the transport and
    the timers leave the signals and the entries of the other keys alone, a
    call of [request] leaves every other key with the handle it had, and
    aborts no controller that existed before it other than the handle
    registered under its own key. *)
Theorem request_disturbs_its_key_only :
  forall (Env : Type) listeners send sleep (this : AxiosWrapperPro Env)
         method_ url_ config s,
    registry_blind Env listeners ->
    (forall c, keeps_others (call_key this method_ url_ config) (fun st => snd (send c st))) ->
    (forall ms, keeps_others (call_key this method_ url_ config) (sleep ms)) ->
    exists r,
      request Env listeners send sleep this method_ url_ config s = Some r /\
      (forall k, k <> call_key this method_ url_ config ->
                 JsMap.get (_abortControllers (final r)) k = JsMap.get (_abortControllers s) k) /\
      (forall c, (c < List.length (signals s))%nat ->
                 JsMap.get (_abortControllers s) (call_key this method_ url_ config) <> Some c ->
                 nth_error (signals (final r)) c = nth_error (signals s) c).
Proof.
  intros Env listeners send sleep this method_ url_ config s Hblind Hsend Hsleep.
  destruct (request_returns Env listeners send sleep this method_ url_ config s) as [r Hr].
  exists r. split; [exact Hr|].
  unfold request in Hr. fold (call_key this method_ url_ config) in Hr.
  eapply loop_undisturbed in Hr; eauto using undisturbed_refl.
  destruct Hr as (_ & Hsig & Hreg & _). split; assumption.
Qed.

Lemma request_disturbs_its_key_only_witness :
  exists r,
    request nat quiet (busy_adapter 7) ticking default_client "GET" "/users"
      (call_with (Some (KSymbol 1)) (mkPartialRetry (Some 1%Z) (Some 5%Z) None))
      two_in_flight = Some r /\
    JsMap.get (_abortControllers (final r)) (KSymbol 2) = Some 1%nat /\
    nth_error (signals (final r)) 1 = Some None.
Proof.
  destruct (request_disturbs_its_key_only nat quiet (busy_adapter 7) ticking default_client
              "GET" "/users"
              (call_with (Some (KSymbol 1)) (mkPartialRetry (Some 1%Z) (Some 5%Z) None))
              two_in_flight) as (r & Hr & Hreg & Hsig).
  - apply quiet_is_blind.
  - intros c s. cbn. repeat split; auto.
  - intros ms s. cbn. repeat split; auto.
  - exists r. split; [exact Hr|]. split.
    + rewrite Hreg; [reflexivity|discriminate].
    + rewrite Hsig; [reflexivity|cbn; lia|discriminate].
Defined.
